(** * VeStream signalling hub

    A shallow embedding of the WebSocket hub of the backend
    (the [wss.on('connection', ...)] handler and its helpers) together with
    the shared protocol types of [packages/shared/src/index.ts], and the
    properties of the room / identity / connection registries that follow
    from it.

    Conventions of the model:
    - the five [Map]s of the server are [gmap]s keyed by strings;
    - a [WebSocket] object is a handle (a number given at accept time); the
      closure variable [currentUserId] of every open connection is kept in
      the field [sessions];
    - [sendMessage] does not perform I/O: each handler returns the list of
      [(socket, envelope)] pairs it hands to [ws.send], in call order;
    - [uuidv4()] is a generator of pairwise distinct, non-empty strings,
      driven by the counter [minted]; a truthiness test on an optional
      identifier that only the server assigns ([currentUserId],
      [room.broadcaster], [excludeUser]) is a test of presence;
    - [new Date().toISOString()] is an oracle: the handler receives a
      [Clock] whose value at [k] is the result of the [k]-th reading of the
      clock made while it runs;
    - [String.prototype.toLowerCase] is a parameter of the development. *)

From Stdlib Require Import ZArith Ascii String.
From stdpp Require Import gmap strings list fin_maps pretty.

Local Open Scope string_scope.
Local Open Scope list_scope.

(** ** Shared protocol types *)

Inductive Role := Broadcaster | Viewer.

Inductive ChatType := public | private.

Inductive WSMessageType :=
  | JOIN_ROOM | LEAVE_ROOM | ROOM_JOINED | ROOM_STATE
  | OFFER | ANSWER | ICE_CANDIDATE
  | USER_JOINED | USER_LEFT | ERROR
  | STREAM_READY | VIEWER_READY | BROADCASTER_READY
  | CHAT_MESSAGE | CHAT_MESSAGE_RECEIVED.

Inductive ErrorCode :=
  | ROOM_NOT_FOUND | BROADCASTER_EXISTS | USER_EXISTS | INVALID_ROLE.

#[global] Instance Role_eq_dec : EqDecision Role.
Proof. solve_decision. Defined.
#[global] Instance ChatType_eq_dec : EqDecision ChatType.
Proof. solve_decision. Defined.
#[global] Instance WSMessageType_eq_dec : EqDecision WSMessageType.
Proof. solve_decision. Defined.
#[global] Instance ErrorCode_eq_dec : EqDecision ErrorCode.
Proof. solve_decision. Defined.

Module User.
Record t := mk
  { id : string; username : string; role : Role; roomId : string }.
End User.

Module Room.
Record t := mk
  { id : string;
    name : string;
    broadcaster : option string;   (* userId of the broadcaster *)
    viewers : list string }.       (* viewer userIds, in join order *)
End Room.

Module ChatMessage.
Record t := mk
  { id : string;
    senderId : string;
    senderUsername : string;
    roomId : string;
    content : string;
    type : ChatType;
    recipientId : option string;
    timestamp : string }.
End ChatMessage.

(** What [getRoomWithUsers] returns: the room spread, plus [users]. *)
Module RoomWithUsers.
Record t := mk
  { id : string;
    name : string;
    broadcaster : option string;
    viewers : list string;
    users : list User.t }.
End RoomWithUsers.

(** The payload shapes, one constructor per payload interface.
    [ReadyPayload] is the [{roomId, userId}] object the client attaches to
    STREAM_READY and VIEWER_READY; the server never reads it. *)
Inductive Payload :=
  | JoinRoomPayload (roomId username : string) (role : Role)
  | RoomJoinedPayload (room : option RoomWithUsers.t) (user : User.t)
                      (messages : list ChatMessage.t)
  | RoomStatePayload (room : option RoomWithUsers.t)
  | UserJoinedPayload (user : User.t)
  | UserLeftPayload (user : User.t) (room : option RoomWithUsers.t)
  | RTCSignalPayload (sender receiver roomId data : string)
  | BroadcasterReadyPayload (broadcaster : User.t)
  | ViewerReadyPayload (viewer : User.t)
  | ChatMessagePayload (message : ChatMessage.t)
  | ErrorPayload (code : ErrorCode) (message : string)
  | ReadyPayload (roomId userId : string).

Module WSMessage.
Record t := mk
  { type : WSMessageType; payload : Payload; timestamp : string }.
End WSMessage.

(** The JOIN_ROOM and CHAT_MESSAGE envelopes of a client, which stamps them
    with [sent]. *)
Definition join_request (roomId username : string) (role : Role) (sent : string)
    : WSMessage.t :=
  WSMessage.mk JOIN_ROOM (JoinRoomPayload roomId username role) sent.

Definition chat_request (chatMessage : ChatMessage.t) (sent : string) : WSMessage.t :=
  WSMessage.mk CHAT_MESSAGE (ChatMessagePayload chatMessage) sent.

(** ** Server state *)

Definition WebSocket := nat.

(** One call of [ws.send(JSON.stringify(message))]. *)
Definition Emission : Type := WebSocket * WSMessage.t.

Definition Clock := nat → string.

Record Hub := mkHub
  { rooms : gmap string Room.t;
    users : gmap string User.t;
    connections : gmap string WebSocket;
    activeStreams : gmap string bool;          (* roomId -> hasActiveStream *)
    chatMessages : gmap string (list ChatMessage.t);
    sessions : gmap WebSocket (option string); (* open socket -> currentUserId *)
    accepted : nat;                            (* sockets accepted so far *)
    minted : nat }.                            (* calls of uuidv4 so far *)

Definition initial : Hub :=
  mkHub ∅ ∅ ∅ ∅ ∅ ∅ 0 0.

Definition set_rooms (v : gmap string Room.t) (st : Hub) : Hub :=
  mkHub v (users st) (connections st) (activeStreams st) (chatMessages st)
        (sessions st) (accepted st) (minted st).
Definition set_users (v : gmap string User.t) (st : Hub) : Hub :=
  mkHub (rooms st) v (connections st) (activeStreams st) (chatMessages st)
        (sessions st) (accepted st) (minted st).
Definition set_connections (v : gmap string WebSocket) (st : Hub) : Hub :=
  mkHub (rooms st) (users st) v (activeStreams st) (chatMessages st)
        (sessions st) (accepted st) (minted st).
Definition set_activeStreams (v : gmap string bool) (st : Hub) : Hub :=
  mkHub (rooms st) (users st) (connections st) v (chatMessages st)
        (sessions st) (accepted st) (minted st).
Definition set_chatMessages (v : gmap string (list ChatMessage.t)) (st : Hub) : Hub :=
  mkHub (rooms st) (users st) (connections st) (activeStreams st) v
        (sessions st) (accepted st) (minted st).
Definition set_sessions (v : gmap WebSocket (option string)) (st : Hub) : Hub :=
  mkHub (rooms st) (users st) (connections st) (activeStreams st)
        (chatMessages st) v (accepted st) (minted st).
Definition set_accepted (v : nat) (st : Hub) : Hub :=
  mkHub (rooms st) (users st) (connections st) (activeStreams st)
        (chatMessages st) (sessions st) v (minted st).
Definition set_minted (v : nat) (st : Hub) : Hub :=
  mkHub (rooms st) (users st) (connections st) (activeStreams st)
        (chatMessages st) (sessions st) (accepted st) v.

(** [uuidv4()]: the [n]-th identifier handed out by the generator. *)
Definition uuidv4 (n : nat) : string := "uuid-" +:+ pretty n.

(** Truthiness of an optional string ([undefined] and [''] are falsy). *)
Definition truthy (o : option string) : bool :=
  match o with
  | Some s => negb (String.eqb s EmptyString)
  | None => false
  end.

(** [Array.prototype.slice(start)] with one argument. *)
Definition slice {A} (start : Z) (l : list A) : list A :=
  let len := Z.of_nat (length l) in
  let k := if (start <? 0)%Z then Z.max (len + start) 0 else Z.min start len in
  drop (Z.to_nat k) l.

(** An instance of [toLowerCase] for the examples: the folding of the
    letters A-Z, which is what the built-in does on ASCII strings. *)
Definition ascii_lower (c : Ascii.ascii) : Ascii.ascii :=
  let n := nat_of_ascii c in
  if (65 <=? n)%nat && (n <=? 90)%nat then ascii_of_nat (n + 32) else c.

Fixpoint ascii_toLowerCase (s : string) : string :=
  match s with
  | EmptyString => EmptyString
  | String c rest => String (ascii_lower c) (ascii_toLowerCase rest)
  end.

(** ** Helpers of the server *)

Definition sendMessage (ws : WebSocket) (message : WSMessage.t) : list Emission :=
  [(ws, message)].

(** [[...(room.broadcaster ? [room.broadcaster] : []), ...room.viewers]] *)
Definition userIds (room : Room.t) : list string :=
  option_list (Room.broadcaster room) ++ Room.viewers room.

Definition broadcastToRoom (st : Hub) (roomId : string) (message : WSMessage.t)
    (excludeUser : option string) : list Emission :=
  match rooms st !! roomId with
  | None => []
  | Some room =>
      flat_map
        (λ userId,
           if decide (excludeUser = Some userId) then []
           else match connections st !! userId with
                | Some userWs => sendMessage userWs message
                | None => []
                end)
        (userIds room)
  end.

Definition notifyViewerOfBroadcaster (st : Hub) (roomId viewerId : string)
    (now : string) : list Emission :=
  match rooms st !! roomId with
  | None => []
  | Some room =>
      match Room.broadcaster room with
      | None => []
      | Some b =>
          match users st !! b, connections st !! viewerId with
          | Some broadcaster, Some viewerWs =>
              sendMessage viewerWs
                (WSMessage.mk BROADCASTER_READY
                   (BroadcasterReadyPayload broadcaster) now)
          | _, _ => []
          end
      end
  end.

(** [room.viewers.forEach(viewerId => notifyViewerOfBroadcaster(...))]:
    the clock is read once for every notification actually sent, [k] being
    the number of readings made before. *)
Fixpoint notifyViewers (st : Hub) (roomId : string) (viewers : list string)
    (clock : Clock) (k : nat) : list Emission :=
  match viewers with
  | [] => []
  | viewerId :: rest =>
      let out := notifyViewerOfBroadcaster st roomId viewerId (clock k) in
      out ++ notifyViewers st roomId rest clock (k + length out)
  end.

Definition getRoomWithUsers (st : Hub) (roomId : string) : option RoomWithUsers.t :=
  match rooms st !! roomId with
  | None => None
  | Some room =>
      let fromBroadcaster :=
        match Room.broadcaster room with
        | Some b => option_list (users st !! b)
        | None => []
        end in
      let fromViewers :=
        flat_map (λ viewerId, option_list (users st !! viewerId))
                 (Room.viewers room) in
      Some (RoomWithUsers.mk (Room.id room) (Room.name room)
              (Room.broadcaster room) (Room.viewers room)
              (fromBroadcaster ++ fromViewers))
  end.

Definition getRoomMessages (st : Hub) (roomId : string) (limit : Z)
    : list ChatMessage.t :=
  let messages := default [] (chatMessages st !! roomId) in
  slice (- limit) messages.

(** [GET /api/rooms/:roomId/messages]; the argument is the result of
    [parseInt(req.query.limit)], [None] standing for [NaN]. *)
Definition api_room_messages (st : Hub) (roomId : string) (limit : option Z)
    : list ChatMessage.t :=
  let limit :=
    match limit with
    | Some n => if (n =? 0)%Z then 50%Z else n
    | None => 50%Z
    end in
  getRoomMessages st roomId limit.

(** ** The connection handler *)

Section Hub.

(** [String.prototype.toLowerCase] *)
Variable toLowerCase : string → string.

Definition isUsernameTaken (st : Hub) (roomId username : string) : bool :=
  match rooms st !! roomId with
  | None => false
  | Some _ =>
      let usersInRoom :=
        filter (λ user, User.roomId user = roomId)
               (map_to_list (users st)).*2 in
      existsb
        (λ user, bool_decide (toLowerCase (User.username user) = toLowerCase username))
        usersInRoom
  end.

Definition errorMessage (ws : WebSocket) (code : ErrorCode) (message timestamp : string)
    : list Emission :=
  sendMessage ws (WSMessage.mk ERROR (ErrorPayload code message) timestamp).

(** JOIN_ROOM, from [const newUserId = uuidv4()] to the [break]: the request
    has passed the checks and [st] already holds the room. *)
Definition seat (clock : Clock) (st : Hub) (ws : WebSocket)
    (roomId username : string) (role : Role) : Hub * list Emission :=
  let timestamp := clock 0 in
  let newUserId := uuidv4 (minted st) in
  let st := set_minted (S (minted st)) st in
  (* currentUserId = newUserId *)
  let st := set_sessions (<[ws := Some newUserId]> (sessions st)) st in
  match rooms st !! roomId with
  | None => (st, [])   (* rooms.get(roomId)! : the access throws and is caught *)
  | Some updatedRoom =>
      let user := User.mk newUserId username role roomId in
      let updatedRoom :=
        match role with
        | Broadcaster =>
            Room.mk (Room.id updatedRoom) (Room.name updatedRoom)
                    (Some newUserId) (Room.viewers updatedRoom)
        | Viewer =>
            Room.mk (Room.id updatedRoom) (Room.name updatedRoom)
                    (Room.broadcaster updatedRoom)
                    (Room.viewers updatedRoom ++ [newUserId])
        end in
      let st := set_rooms (<[roomId := updatedRoom]> (rooms st)) st in
      let st := set_users (<[newUserId := user]> (users st)) st in
      let st := set_connections (<[newUserId := ws]> (connections st)) st in
      let roomWithUsers := getRoomWithUsers st roomId in
      let roomMessages := getRoomMessages st roomId 50 in
      let joined :=
        sendMessage ws
          (WSMessage.mk ROOM_JOINED
             (RoomJoinedPayload roomWithUsers user roomMessages) timestamp) in
      let ready :=
        if bool_decide (role = Viewer)
           && bool_decide (is_Some (Room.broadcaster updatedRoom))
           && bool_decide (activeStreams st !! roomId = Some true)
        then notifyViewerOfBroadcaster st roomId newUserId (clock 1)
        else [] in
      let others :=
        broadcastToRoom st roomId
          (WSMessage.mk USER_JOINED (UserJoinedPayload user) timestamp)
          (Some newUserId) in
      let everyone :=
        broadcastToRoom st roomId
          (WSMessage.mk ROOM_STATE (RoomStatePayload roomWithUsers) timestamp)
          None in
      (st, joined ++ ready ++ others ++ everyone)
  end.

Definition join_room (clock : Clock) (st : Hub) (ws : WebSocket)
    (roomId username : string) (role : Role) : Hub * list Emission :=
  let timestamp := clock 0 in
  match rooms st !! roomId with
  | None =>
      match role with
      | Viewer =>
          (st, errorMessage ws ROOM_NOT_FOUND "Room does not exist" timestamp)
      | Broadcaster =>
          let st :=
            set_rooms (<[roomId := Room.mk roomId ("Room " +:+ roomId) None []]>
                         (rooms st)) st in
          let st := set_chatMessages (<[roomId := []]> (chatMessages st)) st in
          seat clock st ws roomId username role
      end
  | Some room =>
      if isUsernameTaken st roomId username then
        (st, errorMessage ws USER_EXISTS
               "Username is already taken in this room" timestamp)
      else if bool_decide (role = Broadcaster)
              && bool_decide (is_Some (Room.broadcaster room)) then
        (st, errorMessage ws BROADCASTER_EXISTS
               "Room already has a broadcaster" timestamp)
      else seat clock st ws roomId username role
  end.

Definition chat_message (clock : Clock) (st : Hub) (ws : WebSocket)
    (currentUserId : option string) (chatMessage : ChatMessage.t)
    : Hub * list Emission :=
  match currentUserId with
  | None => (st, [])
  | Some currentUserId =>
      match users st !! currentUserId with
      | None => (st, [])
      | Some user =>
          let newMessage :=
            ChatMessage.mk (uuidv4 (minted st)) (User.id user)
              (User.username user) (User.roomId user)
              (ChatMessage.content chatMessage) (ChatMessage.type chatMessage)
              (ChatMessage.recipientId chatMessage) (clock 1) in
          let st := set_minted (S (minted st)) st in
          let roomMessages :=
            default [] (chatMessages st !! User.roomId user) ++ [newMessage] in
          let st :=
            set_chatMessages
              (<[User.roomId user := roomMessages]> (chatMessages st)) st in
          let received :=
            WSMessage.mk CHAT_MESSAGE_RECEIVED (ChatMessagePayload newMessage)
                         (ChatMessage.timestamp newMessage) in
          if bool_decide (ChatMessage.type chatMessage = private)
             && truthy (ChatMessage.recipientId chatMessage) then
            let toRecipient :=
              match connections st !! default EmptyString (ChatMessage.recipientId chatMessage) with
              | Some recipientWs => sendMessage recipientWs received
              | None => []
              end in
            (st, toRecipient ++ sendMessage ws received)
          else
            (st, broadcastToRoom st (User.roomId user) received None)
      end
  end.

Definition stream_ready (clock : Clock) (st : Hub)
    (currentUserId : option string) : Hub * list Emission :=
  match currentUserId with
  | None => (st, [])
  | Some currentUserId =>
      match users st !! currentUserId with
      | None => (st, [])
      | Some user =>
          if bool_decide (User.role user ≠ Broadcaster) then (st, [])
          else
            let st :=
              set_activeStreams (<[User.roomId user := true]> (activeStreams st)) st in
            match rooms st !! User.roomId user with
            | Some room =>
                (st, notifyViewers st (User.roomId user) (Room.viewers room) clock 1)
            | None => (st, [])
            end
      end
  end.

Definition viewer_ready (clock : Clock) (st : Hub)
    (currentUserId : option string) : Hub * list Emission :=
  let timestamp := clock 0 in
  match currentUserId with
  | None => (st, [])
  | Some currentUserId =>
      match users st !! currentUserId with
      | None => (st, [])
      | Some viewer =>
          if bool_decide (User.role viewer ≠ Viewer) then (st, [])
          else
            match rooms st !! User.roomId viewer with
            | None => (st, [])
            | Some room =>
                match Room.broadcaster room with
                | None => (st, [])
                | Some b =>
                    match connections st !! b with
                    | Some broadcasterWs =>
                        (st, sendMessage broadcasterWs
                               (WSMessage.mk VIEWER_READY
                                  (ViewerReadyPayload viewer) timestamp))
                    | None => (st, [])
                    end
                end
            end
      end
  end.

(** OFFER, ANSWER and ICE_CANDIDATE share one case; [type] is [message.type]. *)
Definition signal (clock : Clock) (st : Hub) (currentUserId : option string)
    (type : WSMessageType) (receiver roomId data : string) : Hub * list Emission :=
  let timestamp := clock 0 in
  match currentUserId with
  | None => (st, [])
  | Some currentUserId =>
      match connections st !! receiver with
      | Some receiverWs =>
          (st, sendMessage receiverWs
                 (WSMessage.mk type
                    (RTCSignalPayload currentUserId receiver roomId data)
                    timestamp))
      | None => (st, [])
      end
  end.

(** [ws.on('message', ...)] for the socket [ws].  A frame on a socket that
    is not open cannot occur.  The [switch] has no case for the other
    envelope types.  The model covers the envelopes whose payload has the
    shape that the cast of their case assumes; for any other it leaves the
    hub as it is. *)
Definition on_message (clock : Clock) (st : Hub) (ws : WebSocket)
    (message : WSMessage.t) : Hub * list Emission :=
  match sessions st !! ws with
  | None => (st, [])
  | Some currentUserId =>
      match WSMessage.type message, WSMessage.payload message with
      | JOIN_ROOM, JoinRoomPayload roomId username role =>
          join_room clock st ws roomId username role
      | CHAT_MESSAGE, ChatMessagePayload chatMessage =>
          chat_message clock st ws currentUserId chatMessage
      | STREAM_READY, _ => stream_ready clock st currentUserId
      | VIEWER_READY, _ => viewer_ready clock st currentUserId
      | (OFFER | ANSWER | ICE_CANDIDATE) as type,
        RTCSignalPayload _ receiver roomId data =>
          signal clock st currentUserId type receiver roomId data
      | _, _ => (st, [])
      end
  end.

(** The close handler's update of the room of the departing [user]:
    [room.broadcaster = undefined] for a broadcaster, and
    [room.viewers = room.viewers.filter((id) => id !== currentUserId)]
    otherwise. *)
Definition vacate (currentUserId : string) (user : User.t) (room : Room.t) : Room.t :=
  match User.role user with
  | Broadcaster =>
      Room.mk (Room.id room) (Room.name room) None (Room.viewers room)
  | Viewer =>
      Room.mk (Room.id room) (Room.name room) (Room.broadcaster room)
              (filter (λ id, id ≠ currentUserId) (Room.viewers room))
  end.

(** [ws.on('close', ...)] *)
Definition on_close (clock : Clock) (st : Hub) (ws : WebSocket)
    : Hub * list Emission :=
  match sessions st !! ws with
  | None => (st, [])
  | Some currentUserId =>
      let st := set_sessions (delete ws (sessions st)) st in
      match currentUserId with
      | None => (st, [])
      | Some currentUserId =>
          let '(st, out) :=
            match users st !! currentUserId with
            | None => (st, [])
            | Some user =>
                let st :=
                  match User.role user with
                  | Broadcaster =>
                      set_activeStreams
                        (delete (User.roomId user) (activeStreams st)) st
                  | Viewer => st
                  end in
                match rooms st !! User.roomId user with
                | None => (st, [])
                | Some room =>
                    let room := vacate currentUserId user room in
                    let st :=
                      set_rooms (<[User.roomId user := room]> (rooms st)) st in
                    let roomWithUsers := getRoomWithUsers st (User.roomId user) in
                    let left :=
                      broadcastToRoom st (User.roomId user)
                        (WSMessage.mk USER_LEFT
                           (UserLeftPayload user roomWithUsers) (clock 0))
                        (Some currentUserId) in
                    if bool_decide (Room.broadcaster room = None)
                       && bool_decide (length (Room.viewers room) = 0) then
                      let st :=
                        set_rooms (delete (User.roomId user) (rooms st)) st in
                      let st :=
                        set_chatMessages
                          (delete (User.roomId user) (chatMessages st)) st in
                      (st, left)
                    else
                      (st, left ++
                           broadcastToRoom st (User.roomId user)
                             (WSMessage.mk ROOM_STATE
                                (RoomStatePayload roomWithUsers) (clock 1))
                             None)
                end
            end in
          let st := set_users (delete currentUserId (users st)) st in
          let st := set_connections (delete currentUserId (connections st)) st in
          (st, out)
      end
  end.

(** [wss.on('connection', ...)]: a new socket, with [currentUserId]
    undefined. *)
Definition on_connection (st : Hub) : Hub * list Emission :=
  let ws := accepted st in
  let st := set_accepted (S ws) st in
  (set_sessions (<[ws := None]> (sessions st)) st, []).

(** What the outside world can do to the hub. *)
Inductive Event :=
  | Connection
  | Message (ws : WebSocket) (clock : Clock) (message : WSMessage.t)
  | Close (ws : WebSocket) (clock : Clock).

Definition step (st : Hub) (ev : Event) : Hub * list Emission :=
  match ev with
  | Connection => on_connection st
  | Message ws clock message => on_message clock st ws message
  | Close ws clock => on_close clock st ws
  end.

(** The hub after a sequence of events, and everything it sent meanwhile. *)
Fixpoint run (evs : list Event) (st : Hub) : Hub * list Emission :=
  match evs with
  | [] => (st, [])
  | ev :: evs =>
      let '(st', out) := step st ev in
      let '(st'', out') := run evs st' in
      (st'', out ++ out')
  end.

Inductive reachable : Hub → Prop :=
  | reachable_initial : reachable initial
  | reachable_step st ev : reachable st → reachable (step st ev).1.

End Hub.

(** ** The relay server of [packages/backend/src/index.ts]

    The first server of the repository: it greets a new socket and relays
    every frame that parses to all the other sockets.  [clients] is
    [wss.clients]; [JSON_parse] gives [None] where [JSON.parse] throws, which
    the handler catches. *)

Section Relay.

Variable Json : Type.
Variable JSON_parse : string → option Json.
Variable JSON_stringify : Json → string.
(** [{type: 'MESSAGE', payload: 'Welcome to the server!', timestamp}] *)
Variable welcome : string → Json.

Definition relay_on_connection (ws : WebSocket) (now : string)
    : list (WebSocket * string) :=
  [(ws, JSON_stringify (welcome now))].

Definition relay_on_message (clients : list WebSocket) (ws : WebSocket)
    (data : string) : list (WebSocket * string) :=
  match JSON_parse data with
  | None => []
  | Some message =>
      flat_map
        (λ client,
           if decide (client ≠ ws) then [(client, JSON_stringify message)] else [])
        clients
  end.

End Relay.

(** ** Consistency of the registries

    The relations between the maps that every handler maintains.  The
    clause on empty rooms is suspended for the room [pending], which is the
    room a JOIN_ROOM has created and not seated its broadcaster in yet. *)

Record consistent (pending : option string) (st : Hub) : Prop := mkConsistent
  { (* an identity is seated in the room it names, in the seat of its role *)
    users_seated : ∀ uid u, users st !! uid = Some u →
      User.id u = uid ∧
      ∃ room, rooms st !! User.roomId u = Some room ∧
        match User.role u with
        | Broadcaster => Room.broadcaster room = Some uid
        | Viewer => uid ∈ Room.viewers room
        end;
    (* the seats of a room are held by identities of that room *)
    broadcaster_known : ∀ rid room b,
      rooms st !! rid = Some room → Room.broadcaster room = Some b →
      ∃ u, users st !! b = Some u ∧ User.roomId u = rid ∧ User.role u = Broadcaster;
    viewers_known : ∀ rid room v,
      rooms st !! rid = Some room → v ∈ Room.viewers room →
      ∃ u, users st !! v = Some u ∧ User.roomId u = rid ∧ User.role u = Viewer;
    viewers_nodup : ∀ rid room,
      rooms st !! rid = Some room → NoDup (Room.viewers room);
    room_keyed : ∀ rid room, rooms st !! rid = Some room → Room.id room = rid;
    rooms_nonempty : ∀ rid room,
      rooms st !! rid = Some room → pending ≠ Some rid → userIds room ≠ [];
    (* users and connections are set and deleted together *)
    users_connected : ∀ uid,
      is_Some (users st !! uid) ↔ is_Some (connections st !! uid);
    users_minted : ∀ uid,
      is_Some (users st !! uid) → ∃ n, n < minted st ∧ uid = uuidv4 n;
    active_broadcast : ∀ rid, activeStreams st !! rid = Some true →
      ∃ room, rooms st !! rid = Some room ∧ is_Some (Room.broadcaster room);
    chat_of_room : ∀ rid,
      is_Some (chatMessages st !! rid) → is_Some (rooms st !! rid);
    (* the identity a socket currently holds is registered to that socket *)
    session_bound : ∀ ws uid, sessions st !! ws = Some (Some uid) →
      is_Some (users st !! uid) ∧ connections st !! uid = Some ws }.

(** Further relations kept by the handlers: usernames are unique within a
    room up to [toLowerCase], every room has a chat log, the stream map holds
    no [false], and every stored message is filed under the room id it
    carries, with an id of the generator. *)
Record tidy (toLowerCase : string → string) (st : Hub) : Prop := mkTidy
  { usernames_unique : ∀ uid1 uid2 u1 u2,
      users st !! uid1 = Some u1 → users st !! uid2 = Some u2 →
      User.roomId u1 = User.roomId u2 →
      toLowerCase (User.username u1) = toLowerCase (User.username u2) →
      uid1 = uid2;
    room_has_log : ∀ rid,
      is_Some (rooms st !! rid) → is_Some (chatMessages st !! rid);
    active_is_true : ∀ rid b, activeStreams st !! rid = Some b → b = true;
    log_filed : ∀ rid log m,
      chatMessages st !! rid = Some log → m ∈ log →
      ChatMessage.roomId m = rid ∧
      ∃ n, n < minted st ∧ ChatMessage.id m = uuidv4 n }.

(** ** Scenarios

    Concrete runs of the hub, on which the statements below are exercised. *)

Definition clk : Clock := λ k, "T" +:+ pretty k.

Definition join (roomId username : string) (role : Role) : WSMessage.t :=
  join_request roomId username role "t".

(** A chat message as a client sends it; the server ignores what the
    client wrote in [id], [senderId], [senderUsername] and [timestamp]. *)
Definition say (type : ChatType) (recipientId : option string) (content : string)
    : WSMessage.t :=
  chat_request (ChatMessage.mk "c" "c" "c" "r" content type recipientId "t") "t".

(** Socket 0 has created room r as Alice; socket 1 is open and has not joined. *)
Definition alice_alone : list Event :=
  [Connection; Message 0 clk (join "r" "Alice" Broadcaster); Connection].

(** ... then socket 1 has joined r as the viewer Bob, and socket 2 is open. *)
Definition alice_and_bob : list Event :=
  alice_alone ++ [Message 1 clk (join "r" "Bob" Viewer); Connection].

(** ... then socket 2 has joined r as the viewer Carol. *)
Definition three_members : list Event :=
  alice_and_bob ++ [Message 2 clk (join "r" "Carol" Viewer)].

(** Socket 0 broadcasts in r, socket 1 broadcasts in q. *)
Definition two_rooms : list Event :=
  alice_alone ++ [Message 1 clk (join "q" "Carol" Broadcaster)].

(** Socket 0 has joined twice: as Alice in r, then as Bob in q. *)
Definition joined_twice : list Event :=
  [Connection; Message 0 clk (join "r" "Alice" Broadcaster);
   Message 0 clk (join "q" "Bob" Broadcaster)].

Definition ready (type : WSMessageType) (userId : string) : WSMessage.t :=
  WSMessage.mk type (ReadyPayload "r" userId) "t".

(** Socket 0 has created r as Alice, announced its stream, and then joined
    again, creating q as Bob. *)
Definition rejoined_while_streaming : list Event :=
  [Connection; Message 0 clk (join "r" "Alice" Broadcaster);
   Message 0 clk (ready STREAM_READY "uuid-0");
   Message 0 clk (join "q" "Bob" Broadcaster)].

(** Socket 0 has created r as Alice, socket 1 has created q as Carol, and
    socket 0 has then joined q as the viewer Bob. *)
Definition rejoined_as_viewer : list Event :=
  two_rooms ++ [Message 0 clk (join "q" "Bob" Viewer)].

(** Alice, Bob and Carol in r, Alice streaming; socket 3 is open. *)
Definition streaming : list Event :=
  three_members ++ [Message 0 clk (ready STREAM_READY "uuid-0"); Connection].

(** Alice and Bob in r, Alice has said hello to everyone. *)
Definition chatting : list Event :=
  alice_and_bob ++ [Message 0 clk (say public None "hello")].

Definition after (evs : list Event) : Hub :=
  (run ascii_toLowerCase evs initial).1.

(** The types of the envelopes handed to the socket [ws], in order. *)
Definition received_by (ws : WebSocket) (out : list Emission) : list WSMessageType :=
  (λ e : Emission, WSMessage.type e.2) <$> filter (λ e : Emission, e.1 = ws) out.

(** ** Properties *)

Section Properties.

Variable toLowerCase : string → string.

Lemma uuidv4_inj n m : uuidv4 n = uuidv4 m → n = m.
Proof.
  unfold uuidv4. intros H. apply (inj pretty).
  by apply (inj (String.append "uuid-")) in H.
Qed.

Lemma consistent_initial : consistent None initial.
Proof.
  split; simpl; intros *; rewrite ?lookup_empty;
    try (intros [? ?]; done); try done.
Qed.

Lemma consistent_weaken st pending : consistent None st → consistent pending st.
Proof.
  intros [].
  split; eauto.
Qed.

Lemma fresh_user st pending :
  consistent pending st → users st !! uuidv4 (minted st) = None.
Proof.
  intros C. destruct (users st !! uuidv4 (minted st)) eqn:E; [|done].
  destruct (users_minted _ _ C (uuidv4 (minted st))) as (n & Hn & Heq); [by eexists|].
  apply uuidv4_inj in Heq. lia.
Qed.

Lemma seat_consistent clock st ws roomId username role pending room :
  consistent pending st →
  (pending = None ∨ pending = Some roomId) →
  rooms st !! roomId = Some room →
  (role = Broadcaster → Room.broadcaster room = None) →
  consistent None (seat clock st ws roomId username role).1.
Proof.
  intros C Hp Hr Hb. unfold seat. simpl. rewrite Hr. simpl.
  pose proof (fresh_user _ _ C) as Hfresh.
  set (new := uuidv4 (minted st)) in *.
  assert (Hnb : ∀ rid r, rooms st !! rid = Some r → Room.broadcaster r ≠ Some new).
  { intros rid r Hrid Hbr. destruct (broadcaster_known _ _ C _ _ _ Hrid Hbr) as (u & Hu & _). congruence. }
  assert (Hnv : ∀ rid r, rooms st !! rid = Some r → new ∉ Room.viewers r).
  { intros rid r Hrid Hbr. destruct (viewers_known _ _ C _ _ _ Hrid Hbr) as (u & Hu & _). congruence. }
  destruct C as [Cus Cbk Cvk Cnd Ckey Cne Cuc Cmint Cact Cchat Csess].
  split; simpl.
  - intros uid u. rewrite lookup_insert_Some. intros [[<- <-]|[Hne Hu]]; simpl.
    + split; [done|]. eexists. rewrite lookup_insert_eq. split; [done|].
      destruct role; simpl; [done|]. apply elem_of_app. right. by apply list_elem_of_singleton.
    + destruct (Cus _ _ Hu) as (Hid & r & Hrr & Hrole). split; [done|].
      destruct (decide (User.roomId u = roomId)) as [<-|Hneq].
      * rewrite lookup_insert_eq. eexists; split; [done|].
        assert (r = room) as -> by congruence.
        destruct role; simpl; destruct (User.role u); try done.
        -- rewrite Hb in Hrole; done.
        -- apply elem_of_app. by left.
      * rewrite lookup_insert_ne; [|done]. eauto.
  - intros rid r b. rewrite lookup_insert_Some. intros [[<- <-]|[Hne Hrid]] Hbr.
    + destruct role; simpl in Hbr.
      * injection Hbr as <-. eexists. rewrite lookup_insert_eq. done.
      * destruct (Cbk _ _ _ Hr Hbr) as (u & Hu & ?). exists u.
        rewrite lookup_insert_ne; [done|congruence].
    + destruct (Cbk _ _ _ Hrid Hbr) as (u & Hu & ?). exists u.
      rewrite lookup_insert_ne; [done|congruence].
  - intros rid r v. rewrite lookup_insert_Some. intros [[<- <-]|[Hne Hrid]] Hv.
    + destruct role; simpl in Hv.
      * destruct (Cvk _ _ _ Hr Hv) as (u & Hu & ?). exists u.
        rewrite lookup_insert_ne; [done|congruence].
      * apply elem_of_app in Hv as [Hv|Hv].
        -- destruct (Cvk _ _ _ Hr Hv) as (u & Hu & ?). exists u.
           rewrite lookup_insert_ne; [done|congruence].
        -- apply list_elem_of_singleton in Hv as ->. eexists.
           rewrite lookup_insert_eq. done.
    + destruct (Cvk _ _ _ Hrid Hv) as (u & Hu & ?). exists u.
      rewrite lookup_insert_ne; [done|congruence].
  - intros rid r. rewrite lookup_insert_Some. intros [[<- <-]|[Hne Hrid]]; [|eauto].
    destruct role; simpl; [eauto|].
    apply NoDup_app. split_and!; [eauto| |apply NoDup_singleton].
    intros x Hx ->%list_elem_of_singleton. by eapply Hnv.
  - intros rid r. rewrite lookup_insert_Some. intros [[<- <-]|[Hne Hrid]]; [|eauto].
    destruct role; simpl; eauto.
  - intros rid r. rewrite lookup_insert_Some. intros [[<- <-]|[Hne Hrid]] _.
    + unfold userIds. destruct role; simpl; [done|].
      destruct (Room.viewers room), (Room.broadcaster room); done.
    + apply (Cne _ _ Hrid). destruct Hp as [->| ->]; congruence.
  - intros uid. rewrite !lookup_insert_is_Some. by rewrite Cuc.
  - intros uid. rewrite lookup_insert_is_Some. intros [<-|[_ Hu]].
    + exists (minted st). split; [lia|done].
    + destruct (Cmint _ Hu) as (n & ? & ?). exists n. split; [lia|done].
  - intros rid Hact. destruct (Cact _ Hact) as (r & Hrid & Hsome).
    destruct (decide (roomId = rid)) as [<-|Hne].
    + rewrite lookup_insert_eq. eexists; split; [done|].
      assert (r = room) as -> by congruence.
      destruct role; simpl; [by eexists|done].
    + rewrite lookup_insert_ne; [|done]. eauto.
  - intros rid Hc. rewrite lookup_insert_is_Some'. right. by apply Cchat.
  - intros ws0 uid. rewrite lookup_insert_Some. intros [[<- [= <-]]|[Hne Hs]].
    + rewrite !lookup_insert_eq. split; [by eexists|done].
    + destruct (Csess _ _ Hs) as [Hu Hc].
      assert (new ≠ uid) by (intros <-; rewrite Hfresh in Hu; by destruct Hu).
      rewrite !lookup_insert_ne; done.
Qed.

Lemma create_room_consistent st roomId :
  consistent None st →
  rooms st !! roomId = None →
  consistent (Some roomId)
    (set_chatMessages (<[roomId := []]> (chatMessages st))
       (set_rooms (<[roomId := Room.mk roomId ("Room " +:+ roomId) None []]> (rooms st)) st)).
Proof.
  intros [Cus Cbk Cvk Cnd Ckey Cne Cuc Cmint Cact Cchat Csess] Hr.
  split; simpl; try done.
  - intros uid u Hu. destruct (Cus _ _ Hu) as (Hid & r & Hrr & Hrole).
    split; [done|]. exists r. rewrite lookup_insert_ne; [done|congruence].
  - intros rid r b. rewrite lookup_insert_Some. intros [[<- <-]|[Hne Hrid]]; [done|eauto].
  - intros rid r v. rewrite lookup_insert_Some.
    intros [[<- <-]|[Hne Hrid]]; [by intros ?%elem_of_nil|eauto].
  - intros rid r. rewrite lookup_insert_Some.
    intros [[<- <-]|[Hne Hrid]]; [apply NoDup_nil_2|eauto].
  - intros rid r. rewrite lookup_insert_Some. intros [[<- <-]|[Hne Hrid]]; [done|eauto].
  - intros rid r. rewrite lookup_insert_Some. intros [[<- <-]|[Hne Hrid]] Hp; [done|].
    by apply (Cne _ _ Hrid).
  - intros rid Hact. destruct (Cact _ Hact) as (r & Hrid & Hsome).
    exists r. rewrite lookup_insert_ne; [done|congruence].
  - intros rid. rewrite lookup_insert_is_Some, lookup_insert_is_Some'.
    intros [->|[_ Hc]]; [by left|right; eauto].
Qed.

Lemma join_room_consistent clock st ws roomId username role :
  consistent None st →
  consistent None (join_room toLowerCase clock st ws roomId username role).1.
Proof.
  intros C. unfold join_room. destruct (rooms st !! roomId) as [room|] eqn:Hr.
  - destruct (isUsernameTaken _ _ _ _); [done|].
    destruct (bool_decide (role = Broadcaster) && _) eqn:E; [done|].
    eapply seat_consistent; [done|by left|done|].
    intros ->. rewrite bool_decide_eq_true_2 in E by done. simpl in E.
    apply bool_decide_eq_false in E. destruct (Room.broadcaster room); [|done].
    destruct E. by eexists.
  - destruct role; [|done].
    eapply seat_consistent;
      [exact (create_room_consistent st roomId C Hr)|by right|simpl; apply lookup_insert_eq|done].
Qed.

Lemma chat_message_consistent clock st ws cu chatMessage :
  consistent None st →
  consistent None (chat_message clock st ws cu chatMessage).1.
Proof.
  intros C. unfold chat_message. destruct cu as [cu|]; [|done].
  destruct (users st !! cu) as [user|] eqn:Hu; [|done].
  assert (consistent None
    (set_chatMessages
       (<[User.roomId user :=
            default [] (chatMessages st !! User.roomId user) ++
            [ChatMessage.mk (uuidv4 (minted st)) (User.id user)
               (User.username user) (User.roomId user)
               (ChatMessage.content chatMessage) (ChatMessage.type chatMessage)
               (ChatMessage.recipientId chatMessage) (clock 1)]]>
          (chatMessages st))
       (set_minted (S (minted st)) st))) as C'.
  { destruct C as [Cus Cbk Cvk Cnd Ckey Cne Cuc Cmint Cact Cchat Csess].
    split; simpl; try done.
    - intros uid Hx. destruct (Cmint _ Hx) as (n & ? & ?). exists n. split; [lia|done].
    - intros rid. rewrite lookup_insert_is_Some. intros [<-|[_ Hc]]; [|eauto].
      destruct (Cus _ _ Hu) as (_ & r & Hrr & _). by eexists. }
  simpl. destruct (_ && _); done.
Qed.

Lemma stream_ready_consistent clock st cu :
  consistent None st →
  consistent None (stream_ready clock st cu).1.
Proof.
  intros C. unfold stream_ready. destruct cu as [cu|]; [|done].
  destruct (users st !! cu) as [user|] eqn:Hu; [|done].
  case_bool_decide as Hrole; [done|].
  assert (User.role user = Broadcaster) as Hb by (destruct (User.role user); done).
  assert (consistent None
    (set_activeStreams (<[User.roomId user := true]> (activeStreams st)) st)) as C'.
  { destruct C as [Cus Cbk Cvk Cnd Ckey Cne Cuc Cmint Cact Cchat Csess].
    split; simpl; try done.
    intros rid. rewrite lookup_insert_Some. intros [[<- _]|[_ Hact]]; [|eauto].
    destruct (Cus _ _ Hu) as (_ & r & Hrr & Hseat). rewrite Hb in Hseat.
    exists r. split; [done|by eexists]. }
  simpl. destruct (rooms st !! User.roomId user); done.
Qed.

Lemma viewer_ready_state clock st cu : (viewer_ready clock st cu).1 = st.
Proof.
  unfold viewer_ready. repeat (case_match; try done).
Qed.

Lemma signal_state clock st cu type receiver roomId data :
  (signal clock st cu type receiver roomId data).1 = st.
Proof.
  unfold signal. repeat (case_match; try done).
Qed.

Lemma on_message_consistent clock st ws message :
  consistent None st →
  consistent None (on_message toLowerCase clock st ws message).1.
Proof.
  intros C. unfold on_message. destruct (sessions st !! ws) as [cu|]; [|done].
  destruct (WSMessage.type message), (WSMessage.payload message); try done;
    auto using join_room_consistent, chat_message_consistent, stream_ready_consistent;
    by rewrite ?viewer_ready_state, ?signal_state.
Qed.

Lemma on_connection_consistent st :
  consistent None st → consistent None (on_connection st).1.
Proof.
  intros [Cus Cbk Cvk Cnd Ckey Cne Cuc Cmint Cact Cchat Csess].
  split; simpl; try done.
  intros ws uid. rewrite lookup_insert_Some. intros [[_ ?]|[_ Hs]]; [done|eauto].
Qed.

Lemma leave_consistent st ws cu user room :
  consistent None st →
  sessions st !! ws = Some (Some cu) →
  users st !! cu = Some user →
  rooms st !! User.roomId user = Some room →
  consistent (Some (User.roomId user))
    (mkHub (<[User.roomId user := vacate cu user room]> (rooms st))
           (delete cu (users st)) (delete cu (connections st))
           (match User.role user with
            | Broadcaster => delete (User.roomId user) (activeStreams st)
            | Viewer => activeStreams st
            end)
           (chatMessages st) (delete ws (sessions st)) (accepted st) (minted st)).
Proof.
  intros [Cus Cbk Cvk Cnd Ckey Cne Cuc Cmint Cact Cchat Csess] Hws Hcu Hroom.
  destruct (Cus _ _ Hcu) as (Hid & r & Hr & Hseat).
  assert (r = room) as -> by congruence. clear Hr.
  destruct (Csess _ _ Hws) as [_ Hconn].
  set (rid := User.roomId user) in *.
  split; simpl.
  - intros uid u. rewrite lookup_delete_Some. intros [Hne Hu].
    destruct (Cus _ _ Hu) as (Hid' & r & Hr & Hseat'). split; [done|].
    destruct (decide (User.roomId u = rid)) as [Heq|Hneq].
    + rewrite Heq in Hr |- *. rewrite lookup_insert_eq. eexists; split; [done|].
      assert (r = room) as -> by congruence.
      unfold vacate. destruct (User.role u), (User.role user); simpl; try done.
      * congruence.
      * apply list_elem_of_filter. split; [congruence|done].
    + rewrite lookup_insert_ne; [|done]. eauto.
  - intros rid0 r b. rewrite lookup_insert_Some. intros [[<- <-]|[Hne Hrid]] Hbr.
    + unfold vacate in Hbr. destruct (User.role user) eqn:Hrole; simpl in Hbr; [done|].
      destruct (Cbk _ _ _ Hroom Hbr) as (u & Hu & ? & ?). exists u.
      rewrite lookup_delete_ne; [done|]. intros <-. congruence.
    + destruct (Cbk _ _ _ Hrid Hbr) as (u & Hu & ? & ?). exists u.
      rewrite lookup_delete_ne; [done|]. intros <-.
      assert (u = user) as -> by congruence. done.
  - intros rid0 r v. rewrite lookup_insert_Some. intros [[<- <-]|[Hne Hrid]] Hv.
    + unfold vacate in Hv. destruct (User.role user) eqn:Hrole; simpl in Hv.
      * destruct (Cvk _ _ _ Hroom Hv) as (u & Hu & ? & ?). exists u.
        rewrite lookup_delete_ne; [done|]. intros <-. congruence.
      * apply list_elem_of_filter in Hv as [Hne Hv].
        destruct (Cvk _ _ _ Hroom Hv) as (u & Hu & ? & ?). exists u.
        rewrite lookup_delete_ne; done.
    + destruct (Cvk _ _ _ Hrid Hv) as (u & Hu & ? & ?). exists u.
      rewrite lookup_delete_ne; [done|]. intros <-.
      assert (u = user) as -> by congruence. done.
  - intros rid0 r. rewrite lookup_insert_Some. intros [[<- <-]|[Hne Hrid]]; [|eauto].
    unfold vacate. destruct (User.role user); simpl; [eauto|].
    apply NoDup_filter. eauto.
  - intros rid0 r. rewrite lookup_insert_Some. intros [[<- <-]|[Hne Hrid]]; [|eauto].
    unfold vacate. destruct (User.role user); simpl; eauto.
  - intros rid0 r. rewrite lookup_insert_Some. intros [[<- <-]|[Hne Hrid]] Hp; [done|].
    by apply (Cne _ _ Hrid).
  - intros uid. rewrite !lookup_delete_is_Some. by rewrite Cuc.
  - intros uid. rewrite lookup_delete_is_Some. intros [_ Hu]. eauto.
  - intros rid0 Hact.
    assert (activeStreams st !! rid0 = Some true ∧
            (User.role user = Broadcaster → rid0 ≠ rid)) as [Hact' Hb].
    { destruct (User.role user); [|done].
      apply lookup_delete_Some in Hact as [? ?]. done. }
    destruct (Cact _ Hact') as (r & Hrid & Hsome).
    destruct (decide (rid = rid0)) as [<-|Hne].
    + rewrite lookup_insert_eq. eexists; split; [done|].
      assert (r = room) as -> by congruence.
      unfold vacate. destruct (User.role user); simpl; [|done].
      by destruct Hb.
    + rewrite lookup_insert_ne; [|done]. eauto.
  - intros rid0 Hc. rewrite lookup_insert_is_Some'. right. by apply Cchat.
  - intros ws0 uid. rewrite lookup_delete_Some. intros [Hne Hs].
    destruct (Csess _ _ Hs) as [Hu Hc].
    assert (cu ≠ uid) by (intros <-; congruence).
    rewrite lookup_delete_is_Some, lookup_delete_ne; done.
Qed.

Lemma drop_room_consistent st rid room :
  consistent (Some rid) st →
  rooms st !! rid = Some room →
  Room.broadcaster room = None →
  Room.viewers room = [] →
  consistent None
    (set_chatMessages (delete rid (chatMessages st))
       (set_rooms (delete rid (rooms st)) st)).
Proof.
  intros [Cus Cbk Cvk Cnd Ckey Cne Cuc Cmint Cact Cchat Csess] Hroom Hb Hv.
  split; simpl; try done.
  - intros uid u Hu. destruct (Cus _ _ Hu) as (Hid & r & Hr & Hseat).
    split; [done|]. exists r. split; [|done].
    rewrite lookup_delete_ne; [done|]. intros ->.
    assert (r = room) as -> by congruence.
    rewrite Hb, Hv in Hseat. destruct (User.role u); [done|by apply elem_of_nil in Hseat].
  - intros rid0 r b. rewrite lookup_delete_Some. intros [_ ?]. eauto.
  - intros rid0 r b. rewrite lookup_delete_Some. intros [_ ?]. eauto.
  - intros rid0 r. rewrite lookup_delete_Some. intros [_ ?]. eauto.
  - intros rid0 r. rewrite lookup_delete_Some. intros [_ ?]. eauto.
  - intros rid0 r. rewrite lookup_delete_Some. intros [Hne ?] _.
    apply (Cne _ _ H). congruence.
  - intros rid0 Hact. destruct (Cact _ Hact) as (r & Hr & Hsome). exists r.
    split; [|done]. rewrite lookup_delete_ne; [done|]. intros <-.
    assert (r = room) as -> by congruence. rewrite Hb in Hsome. by destruct Hsome.
  - intros rid0. rewrite !lookup_delete_is_Some. intros [? ?]. eauto.
Qed.

Lemma keep_room_consistent st rid room :
  consistent (Some rid) st →
  rooms st !! rid = Some room →
  userIds room ≠ [] →
  consistent None st.
Proof.
  intros [Cus Cbk Cvk Cnd Ckey Cne Cuc Cmint Cact Cchat Csess] Hroom Hne.
  split; try done.
  intros rid0 r Hr _. destruct (decide (rid0 = rid)) as [->|Hneq].
  - congruence.
  - apply (Cne _ _ Hr). congruence.
Qed.

Lemma close_unjoined_consistent st ws :
  consistent None st →
  consistent None (set_sessions (delete ws (sessions st)) st).
Proof.
  intros [Cus Cbk Cvk Cnd Ckey Cne Cuc Cmint Cact Cchat Csess].
  split; simpl; try done.
  intros ws0 uid. rewrite lookup_delete_Some. intros [_ ?]. eauto.
Qed.

(** The state a close leaves, for a socket that holds a seated identity. *)
Lemma on_close_joined clock st ws cu user room :
  sessions st !! ws = Some (Some cu) →
  users st !! cu = Some user →
  rooms st !! User.roomId user = Some room →
  (on_close clock st ws).1 =
    let left :=
      mkHub (<[User.roomId user := vacate cu user room]> (rooms st))
            (delete cu (users st)) (delete cu (connections st))
            (match User.role user with
             | Broadcaster => delete (User.roomId user) (activeStreams st)
             | Viewer => activeStreams st
             end)
            (chatMessages st) (delete ws (sessions st)) (accepted st) (minted st) in
    if bool_decide (Room.broadcaster (vacate cu user room) = None)
       && bool_decide (length (Room.viewers (vacate cu user room)) = 0)
    then set_chatMessages (delete (User.roomId user) (chatMessages left))
           (set_rooms (delete (User.roomId user) (rooms left)) left)
    else left.
Proof.
  intros Hws Hu Hroom. unfold on_close. rewrite Hws. simpl. rewrite Hu.
  destruct (User.role user) eqn:Hrole; simpl; rewrite Hroom;
    unfold vacate; rewrite Hrole; simpl;
    repeat case_bool_decide; reflexivity.
Qed.

Lemma on_close_consistent clock st ws :
  consistent None st →
  consistent None (on_close clock st ws).1.
Proof.
  intros C.
  destruct (sessions st !! ws) as [[cu|]|] eqn:Hws.
  - destruct (session_bound _ _ C _ _ Hws) as [[user Hu] Hconn].
    destruct (users_seated _ _ C _ _ Hu) as (Hid & room & Hroom & Hseat).
    pose proof (leave_consistent _ _ _ _ _ C Hws Hu Hroom) as CA.
    rewrite (on_close_joined _ _ _ _ _ _ Hws Hu Hroom). simpl.
    destruct (bool_decide _ && bool_decide _) eqn:E.
    + apply andb_true_iff in E as [Hb%bool_decide_eq_true Hv%bool_decide_eq_true].
      apply length_zero_iff_nil in Hv.
      refine (drop_room_consistent _ _ _ CA _ Hb Hv). simpl. apply lookup_insert_eq.
    + refine (keep_room_consistent _ _ _ CA _ _); [simpl; apply lookup_insert_eq|].
      unfold userIds. intros [Hb Hv]%app_eq_nil.
      rewrite Hv in E.
      destruct (Room.broadcaster (vacate cu user room)); [by simplify_eq/=|].
      rewrite !bool_decide_eq_true_2 in E by done. done.
  - unfold on_close. rewrite Hws. by apply close_unjoined_consistent.
  - unfold on_close. by rewrite Hws.
Qed.

Lemma step_consistent st ev :
  consistent None st → consistent None (step toLowerCase st ev).1.
Proof.
  intros C. destruct ev; simpl.
  - by apply on_connection_consistent.
  - by apply on_message_consistent.
  - by apply on_close_consistent.
Qed.

Lemma reachable_consistent st :
  reachable toLowerCase st → consistent None st.
Proof.
  induction 1; auto using consistent_initial, step_consistent.
Qed.

Lemma reachable_run evs st :
  reachable toLowerCase st → reachable toLowerCase (run toLowerCase evs st).1.
Proof.
  revert st. induction evs as [|ev evs IH]; intros st Hst; simpl; [done|].
  pose proof (reachable_step toLowerCase st ev Hst) as Hstep.
  destruct (step toLowerCase st ev) as [st' out]. simpl in Hstep.
  specialize (IH st' Hstep). destruct (run toLowerCase evs st'). done.
Qed.

(** *** Auxiliary facts *)

Lemma isUsernameTaken_true st roomId username :
  isUsernameTaken toLowerCase st roomId username = true ↔
  is_Some (rooms st !! roomId) ∧
  ∃ uid u, users st !! uid = Some u ∧ User.roomId u = roomId ∧
           toLowerCase (User.username u) = toLowerCase username.
Proof.
  unfold isUsernameTaken. destruct (rooms st !! roomId) as [room|].
  - rewrite existsb_exists. split.
    + intros (u & Hin & Hname). split; [by eexists|].
      apply list_elem_of_In, list_elem_of_filter in Hin as [Hrid Hin].
      apply list_elem_of_fmap in Hin as ([uid u'] & -> & Hin).
      apply elem_of_map_to_list in Hin. apply bool_decide_eq_true in Hname.
      by exists uid, u'.
    + intros (_ & uid & u & Hu & Hrid & Hname). exists u. split.
      * apply list_elem_of_In, list_elem_of_filter. split; [done|].
        apply list_elem_of_fmap. exists (uid, u). split; [done|].
        by apply elem_of_map_to_list.
      * by apply bool_decide_eq_true.
  - split; [done|]. intros [[? ?] _]. done.
Qed.

Lemma member_known st rid room uid :
  consistent None st →
  rooms st !! rid = Some room →
  uid ∈ userIds room →
  ∃ u ws, users st !! uid = Some u ∧ User.roomId u = rid ∧
          connections st !! uid = Some ws.
Proof.
  intros C Hroom Hin. unfold userIds in Hin.
  assert (∃ u, users st !! uid = Some u ∧ User.roomId u = rid) as (u & Hu & Hrid).
  { apply elem_of_app in Hin as [Hin|Hin].
    - destruct (Room.broadcaster room) as [b|] eqn:Hb; simpl in Hin;
        [|by apply elem_of_nil in Hin].
      apply list_elem_of_singleton in Hin as ->.
      destruct (broadcaster_known _ _ C _ _ _ Hroom Hb) as (u & ? & ? & ?). eauto.
    - destruct (viewers_known _ _ C _ _ _ Hroom Hin) as (u & ? & ? & ?). eauto. }
  destruct (proj1 (users_connected _ _ C uid)) as [s Hs]; [by eexists|].
  by exists u, s.
Qed.

Lemma userIds_nodup st rid room :
  consistent None st → rooms st !! rid = Some room → NoDup (userIds room).
Proof.
  intros C Hroom. unfold userIds.
  pose proof (viewers_nodup _ _ C _ _ Hroom) as Hnd.
  destruct (Room.broadcaster room) as [b|] eqn:Hb; simpl; [|done].
  constructor; [|done]. intros Hin.
  destruct (broadcaster_known _ _ C _ _ _ Hroom Hb) as (u & Hu & _ & Hrole).
  destruct (viewers_known _ _ C _ _ _ Hroom Hin) as (u' & Hu' & _ & Hrole').
  congruence.
Qed.

Lemma fan_out_all (conns : gmap string WebSocket) (message : WSMessage.t)
    (ids : list string) :
  (∀ uid, uid ∈ ids → is_Some (conns !! uid)) →
  ∃ socks,
    Forall2 (λ uid s, conns !! uid = Some s) ids socks ∧
    flat_map
      (λ userId,
         if decide (None = Some userId) then []
         else match conns !! userId with
              | Some userWs => sendMessage userWs message
              | None => []
              end) ids
    = map (λ s, (s, message)) socks.
Proof.
  induction ids as [|uid ids IH]; intros Hall.
  - exists []. split; [constructor|done].
  - destruct IH as (socks & Hsocks & Heq).
    { intros x Hx. apply Hall. by right. }
    destruct (Hall uid) as [s Hs]; [by left|].
    exists (s :: socks). split; [by constructor|].
    cbn [flat_map]. rewrite Hs, Heq. by destruct (decide (None = Some uid)).
Qed.

Lemma slice_nil {A} start : slice start (@nil A) = [].
Proof. unfold slice. by rewrite drop_nil. Qed.

Lemma uuidv4_truthy n : truthy (Some (uuidv4 n)) = true.
Proof. done. Qed.

Local Arguments truthy : simpl never.

(** What does hold of sockets and identities: the identity a socket
    currently holds is held by no other socket. *)
Lemma current_identity_unique st ws1 ws2 uid :
  reachable toLowerCase st →
  sessions st !! ws1 = Some (Some uid) →
  sessions st !! ws2 = Some (Some uid) →
  ws1 = ws2.
Proof.
  intros Hst H1 H2. apply reachable_consistent in Hst.
  destruct (session_bound _ _ Hst _ _ H1) as [_ Hc1].
  destruct (session_bound _ _ Hst _ _ H2) as [_ Hc2].
  congruence.
Qed.

(** *** The claims *)

(** C1, as the code has it: in every reachable state a room has at most
    one broadcaster - an identity with the role broadcaster is the one named
    by the [broadcaster] field of its room, so two such identities of one
    room are the same; and in every reachable state a JOIN_ROOM with role
    broadcaster for an existing room that has a broadcaster, with a username
    that is not taken in that room, is answered by ERROR BROADCASTER_EXISTS
    alone and changes nothing (no room is modified, no identity seated). *)
Theorem join_second_broadcaster st :
  reachable toLowerCase st →
  (∀ rid r uid u,
     rooms st !! rid = Some r → users st !! uid = Some u →
     User.roomId u = rid → User.role u = Broadcaster →
     Room.broadcaster r = Some uid)
  ∧
  (∀ uid1 uid2 u1 u2,
     users st !! uid1 = Some u1 → users st !! uid2 = Some u2 →
     User.role u1 = Broadcaster → User.role u2 = Broadcaster →
     User.roomId u1 = User.roomId u2 →
     uid1 = uid2)
  ∧
  (∀ ws cu clock roomId username sent room,
     sessions st !! ws = Some cu →
     rooms st !! roomId = Some room →
     is_Some (Room.broadcaster room) →
     isUsernameTaken toLowerCase st roomId username = false →
     on_message toLowerCase clock st ws
       (join_request roomId username Broadcaster sent) =
       (st, [(ws, WSMessage.mk ERROR
                    (ErrorPayload BROADCASTER_EXISTS "Room already has a broadcaster")
                    (clock 0))])).
Proof.
  intros Hst. apply reachable_consistent in Hst. split_and!.
  - intros rid r uid u Hr Hu Hrid Hrole.
    destruct (users_seated _ _ Hst _ _ Hu) as (_ & r' & Hr' & Hseat).
    rewrite Hrole in Hseat. congruence.
  - intros uid1 uid2 u1 u2 Hu1 Hu2 Hrole1 Hrole2 Hrid.
    destruct (users_seated _ _ Hst _ _ Hu1) as (_ & r1 & Hr1 & Hseat1).
    destruct (users_seated _ _ Hst _ _ Hu2) as (_ & r2 & Hr2 & Hseat2).
    rewrite Hrole1 in Hseat1. rewrite Hrole2 in Hseat2. congruence.
  - intros ws cu clock roomId username sent room Hws Hroom Hb Hfree.
    unfold on_message, join_request. rewrite Hws. simpl.
    unfold join_room. rewrite Hroom, Hfree.
    by rewrite !bool_decide_eq_true_2.
Qed.

(** C2: an OFFER, ANSWER or ICE_CANDIDATE from a socket bound to the
    identity [U] changes no state; when [receiver] is in the connection
    registry, exactly one envelope goes out, to the receiver's socket, of the
    type of the inbound one, with [sender] set to [U] whatever the client
    wrote there and [receiver], [roomId] and [data] as received; when
    [receiver] is not in the registry nothing goes out. *)
Theorem relay_stamps_sender st ws U clock message sender receiver roomId data :
  sessions st !! ws = Some (Some U) →
  WSMessage.type message ∈ [OFFER; ANSWER; ICE_CANDIDATE] →
  WSMessage.payload message = RTCSignalPayload sender receiver roomId data →
  on_message toLowerCase clock st ws message =
    (st,
     match connections st !! receiver with
     | Some receiverWs =>
         [(receiverWs,
           WSMessage.mk (WSMessage.type message)
             (RTCSignalPayload U receiver roomId data) (clock 0))]
     | None => []
     end).
Proof.
  intros Hws Hty Hpay. unfold on_message. rewrite Hws, Hpay.
  assert (WSMessage.type message = OFFER ∨ WSMessage.type message = ANSWER ∨
          WSMessage.type message = ICE_CANDIDATE) as [-> | [-> | ->]].
  { rewrite !elem_of_cons, elem_of_nil in Hty. tauto. }
  all: unfold signal, sendMessage; by destruct (connections st !! receiver).
Qed.

(** C3: a JOIN_ROOM for a room that is not in the registry is answered, for
    a viewer, by ERROR ROOM_NOT_FOUND alone and leaves the hub as it was; for
    a broadcaster it creates the room, with no viewers and an empty chat log,
    and seats the requester as its broadcaster. *)
Theorem join_absent_room st ws cu clock roomId username sent :
  sessions st !! ws = Some cu →
  rooms st !! roomId = None →
  on_message toLowerCase clock st ws (join_request roomId username Viewer sent) =
    (st, [(ws, WSMessage.mk ERROR
                 (ErrorPayload ROOM_NOT_FOUND "Room does not exist") (clock 0))])
  ∧
  let st' :=
    (on_message toLowerCase clock st ws
       (join_request roomId username Broadcaster sent)).1 in
  let newUserId := uuidv4 (minted st) in
  rooms st' !! roomId =
    Some (Room.mk roomId ("Room " +:+ roomId) (Some newUserId) []) ∧
  chatMessages st' !! roomId = Some [] ∧
  users st' !! newUserId = Some (User.mk newUserId username Broadcaster roomId) ∧
  connections st' !! newUserId = Some ws ∧
  sessions st' !! ws = Some (Some newUserId).
Proof.
  intros Hws Hroom. unfold on_message, join_request. rewrite Hws. simpl.
  unfold join_room. rewrite Hroom. split; [done|].
  unfold seat. simpl. rewrite !lookup_insert_eq. simpl.
  rewrite !lookup_insert_eq. done.
Qed.

(** X22: what holds of the stream flag.  In every reachable state a room
    whose stream is active has its [broadcaster] field set; the flag is set
    once the socket that currently holds the identity of the room's
    broadcaster has sent STREAM_READY, and is gone once that socket has
    closed. *)
Theorem stream_active_has_broadcaster st :
  reachable toLowerCase st →
  (∀ rid, activeStreams st !! rid = Some true →
     ∃ room, rooms st !! rid = Some room ∧ is_Some (Room.broadcaster room))
  ∧
  (∀ ws U rid room clock message,
     sessions st !! ws = Some (Some U) →
     rooms st !! rid = Some room →
     Room.broadcaster room = Some U →
     (WSMessage.type message = STREAM_READY →
      activeStreams (on_message toLowerCase clock st ws message).1 !! rid = Some true)
     ∧ activeStreams (on_close clock st ws).1 !! rid = None).
Proof.
  intros Hst. apply reachable_consistent in Hst. split; [apply Hst|].
  intros ws U rid room clock message Hws Hroom Hb.
  destruct (broadcaster_known _ _ Hst _ _ _ Hroom Hb) as (u & Hu & Hrid & Hrole).
  split.
  - intros Hty. unfold on_message. rewrite Hws, Hty.
    assert (stream_ready clock st (Some U) =
            (set_activeStreams (<[rid := true]> (activeStreams st)) st,
             notifyViewers
               (set_activeStreams (<[rid := true]> (activeStreams st)) st)
               rid (Room.viewers room) clock 1)) as Heq.
    { unfold stream_ready. rewrite Hu, Hrole, Hrid. simpl. by rewrite Hroom. }
    destruct (WSMessage.payload message); rewrite Heq; simpl;
      apply lookup_insert_eq.
  - rewrite <- Hrid in Hroom.
    rewrite (on_close_joined _ _ _ _ _ _ Hws Hu Hroom). simpl.
    rewrite Hrole, Hrid. destruct (_ && _); simpl; apply lookup_delete_eq.
Qed.

(** C5: a JOIN_ROOM for an existing room, with a username that is, letter
    case aside, the username of a user of that room, is answered by ERROR
    USER_EXISTS alone; the registries and the identity held by the
    requesting socket are as before. *)
Theorem join_taken_username st ws cu clock roomId username role sent room uid u :
  reachable toLowerCase st →
  sessions st !! ws = Some cu →
  rooms st !! roomId = Some room →
  uid ∈ userIds room →
  users st !! uid = Some u →
  toLowerCase (User.username u) = toLowerCase username →
  on_message toLowerCase clock st ws (join_request roomId username role sent) =
    (st, [(ws, WSMessage.mk ERROR
                 (ErrorPayload USER_EXISTS "Username is already taken in this room")
                 (clock 0))]).
Proof.
  intros Hst Hws Hroom Hin Hu Hname.
  apply reachable_consistent in Hst.
  destruct (member_known _ _ _ _ Hst Hroom Hin) as (u' & s & Hu' & Hrid & _).
  assert (u' = u) as -> by congruence.
  assert (isUsernameTaken toLowerCase st roomId username = true) as Htaken.
  { apply isUsernameTaken_true. split; [by eexists|]. by exists uid, u. }
  unfold on_message, join_request. rewrite Hws. simpl.
  unfold join_room. by rewrite Hroom, Htaken.
Qed.

(** C6: in every reachable state - so after any sequence of joins and
    closes - a room of the registry has a broadcaster or a viewer, and a room
    id that is not in the registry has no chat log; reading the chat history
    of such a room id gives the empty array, from [getRoomMessages] and from
    the REST route alike. *)
Theorem empty_rooms_are_gone st :
  reachable toLowerCase st →
  (∀ rid room, rooms st !! rid = Some room →
     ¬ (Room.broadcaster room = None ∧ Room.viewers room = []))
  ∧
  (∀ rid, rooms st !! rid = None →
     chatMessages st !! rid = None ∧
     (∀ limit, getRoomMessages st rid limit = []) ∧
     (∀ limit, api_room_messages st rid limit = [])).
Proof.
  intros Hst. apply reachable_consistent in Hst. split.
  - intros rid room Hroom [Hb Hv].
    apply (rooms_nonempty _ _ Hst _ _ Hroom); [done|].
    unfold userIds. by rewrite Hb, Hv.
  - intros rid Hroom.
    assert (chatMessages st !! rid = None) as Hchat.
    { destruct (chatMessages st !! rid) eqn:E; [|done].
      destruct (chat_of_room _ _ Hst rid) as [? ?]; [by eexists|congruence]. }
    split; [done|].
    assert (∀ limit, getRoomMessages st rid limit = []) as Hget.
    { intros limit. unfold getRoomMessages. rewrite Hchat. apply slice_nil. }
    split; [done|]. intros limit. unfold api_room_messages. apply Hget.
Qed.

(** C7: a CHAT_MESSAGE from a joined user is stored as a message minted by
    the server.  If it is private and its recipient is in the connection
    registry, exactly two CHAT_MESSAGE_RECEIVED envelopes carrying the minted
    message go out: one to the recipient's socket, then one to the sender's;
    nothing goes to any other socket.  If it is public, one such envelope
    goes out for every member of the sender's room, in the order broadcaster
    then viewers, each member being listed once and the sender being one of
    them. *)
Theorem chat_delivery st ws U user clock chatMessage sent :
  reachable toLowerCase st →
  sessions st !! ws = Some (Some U) →
  users st !! U = Some user →
  let newMessage :=
    ChatMessage.mk (uuidv4 (minted st)) U (User.username user) (User.roomId user)
      (ChatMessage.content chatMessage) (ChatMessage.type chatMessage)
      (ChatMessage.recipientId chatMessage) (clock 1) in
  let received :=
    WSMessage.mk CHAT_MESSAGE_RECEIVED (ChatMessagePayload newMessage) (clock 1) in
  let out :=
    (on_message toLowerCase clock st ws (chat_request chatMessage sent)).2 in
  (∀ R recipientWs,
     ChatMessage.type chatMessage = private →
     ChatMessage.recipientId chatMessage = Some R →
     connections st !! R = Some recipientWs →
     out = [(recipientWs, received); (ws, received)])
  ∧
  (ChatMessage.type chatMessage = public →
   ∃ room socks,
     rooms st !! User.roomId user = Some room ∧
     U ∈ userIds room ∧
     NoDup (userIds room) ∧
     Forall2 (λ uid s, connections st !! uid = Some s) (userIds room) socks ∧
     out = map (λ s, (s, received)) socks).
Proof.
  intros Hst Hws Hu. apply reachable_consistent in Hst. simpl.
  destruct (users_seated _ _ Hst _ _ Hu) as (Hid & room & Hroom & Hseat).
  unfold on_message, chat_request. rewrite Hws. simpl.
  unfold chat_message. rewrite Hu, Hid. split.
  - intros R recipientWs Hty HR Hconn. rewrite Hty, HR. simpl.
    destruct (users_minted _ _ Hst R) as (n & _ & ->).
    { apply (users_connected _ _ Hst). by eexists. }
    rewrite uuidv4_truthy. simpl. by rewrite Hconn.
  - intros Hty. rewrite Hty. simpl. exists room.
    destruct (fan_out_all (connections st)
                (WSMessage.mk CHAT_MESSAGE_RECEIVED
                   (ChatMessagePayload
                      (ChatMessage.mk (uuidv4 (minted st)) U (User.username user)
                         (User.roomId user) (ChatMessage.content chatMessage) public
                         (ChatMessage.recipientId chatMessage) (clock 1)))
                   (clock 1))
                (userIds room)) as (socks & Hsocks & Heq).
    { intros uid Hin.
      destruct (member_known _ _ _ _ Hst Hroom Hin) as (? & s & _ & _ & Hs).
      by eexists. }
    exists socks. split_and!; [done| |by eapply userIds_nodup|done|].
    + unfold userIds. destruct (User.role user).
      * rewrite Hseat. by left.
      * apply elem_of_app. by right.
    + unfold broadcastToRoom. simpl. by rewrite Hroom.
Qed.

(** C8, as the code has it: when a viewer joins a room that holds its
    broadcaster only and whose stream is not active, exactly four envelopes
    go out, in this order: ROOM_JOINED to the joining socket, USER_JOINED
    (payload: the new user) to the broadcaster's socket, ROOM_STATE to the
    broadcaster's socket, ROOM_STATE to the joining socket.  So the joining
    socket gets ROOM_JOINED then ROOM_STATE and no USER_JOINED, the
    broadcaster's socket gets USER_JOINED then ROOM_STATE, and there is no
    BROADCASTER_READY. *)
Theorem viewer_join_notifications
    st ws cu clock roomId username sent room B broadcasterWs :
  reachable toLowerCase st →
  sessions st !! ws = Some cu →
  rooms st !! roomId = Some room →
  Room.broadcaster room = Some B →
  Room.viewers room = [] →
  activeStreams st !! roomId ≠ Some true →
  connections st !! B = Some broadcasterWs →
  isUsernameTaken toLowerCase st roomId username = false →
  ∃ broadcaster,
    users st !! B = Some broadcaster ∧
    let user := User.mk (uuidv4 (minted st)) username Viewer roomId in
    let snapshot :=
      Some (RoomWithUsers.mk (Room.id room) (Room.name room) (Some B)
              [uuidv4 (minted st)] [broadcaster; user]) in
    (on_message toLowerCase clock st ws (join_request roomId username Viewer sent)).2 =
      [(ws, WSMessage.mk ROOM_JOINED
              (RoomJoinedPayload snapshot user (getRoomMessages st roomId 50))
              (clock 0));
       (broadcasterWs, WSMessage.mk USER_JOINED (UserJoinedPayload user) (clock 0));
       (broadcasterWs, WSMessage.mk ROOM_STATE (RoomStatePayload snapshot) (clock 0));
       (ws, WSMessage.mk ROOM_STATE (RoomStatePayload snapshot) (clock 0))].
Proof.
  intros Hst Hws Hroom Hb Hv Hact Hconn Hfree.
  apply reachable_consistent in Hst.
  destruct (broadcaster_known _ _ Hst _ _ _ Hroom Hb) as (bu & Hbu & _ & _).
  exists bu. split; [done|].
  pose proof (fresh_user _ _ Hst) as Hfresh.
  assert (uuidv4 (minted st) ≠ B) as Hne by congruence.
  unfold on_message, join_request. rewrite Hws. simpl.
  unfold join_room. rewrite Hroom, Hfree. simpl.
  unfold seat. simpl. rewrite Hroom. simpl.
  unfold getRoomWithUsers, broadcastToRoom, getRoomMessages. simpl.
  rewrite !lookup_insert_eq. unfold userIds. simpl. rewrite Hb, Hv. simpl.
  rewrite !lookup_insert_eq. rewrite !lookup_insert_ne by done.
  rewrite Hbu, Hconn. simpl.
  rewrite (bool_decide_eq_false_2 (activeStreams st !! roomId = Some true)) by done.
  repeat case_decide; simplify_eq; done.
Qed.

(** C10: for a private CHAT_MESSAGE with a non-empty recipient id, the
    envelopes sent are decided by the connection registry alone: the minted
    message goes to the socket registered for the recipient id, if there is
    one, and then to the sender.  In particular it reaches a recipient whose
    identity belongs to another room than the sender's. *)
Theorem private_chat_crosses_rooms st ws U user clock chatMessage sent R :
  sessions st !! ws = Some (Some U) →
  users st !! U = Some user →
  ChatMessage.type chatMessage = private →
  ChatMessage.recipientId chatMessage = Some R →
  R ≠ EmptyString →
  let newMessage :=
    ChatMessage.mk (uuidv4 (minted st)) (User.id user) (User.username user)
      (User.roomId user) (ChatMessage.content chatMessage) private (Some R)
      (clock 1) in
  let received :=
    WSMessage.mk CHAT_MESSAGE_RECEIVED (ChatMessagePayload newMessage) (clock 1) in
  let out :=
    (on_message toLowerCase clock st ws (chat_request chatMessage sent)).2 in
  out = match connections st !! R with
        | Some recipientWs => [(recipientWs, received)]
        | None => []
        end ++ [(ws, received)]
  ∧
  (∀ recipient recipientWs,
     users st !! R = Some recipient →
     User.roomId recipient ≠ User.roomId user →
     connections st !! R = Some recipientWs →
     (recipientWs, received) ∈ out).
Proof.
  intros Hws Hu Hty HR Hne. simpl.
  assert (truthy (Some R) = true) as Htruthy.
  { unfold truthy. destruct (String.eqb_spec R EmptyString); done. }
  unfold on_message, chat_request. rewrite Hws. simpl.
  unfold chat_message. rewrite Hu, Hty, HR, Htruthy. simpl.
  split; [done|].
  intros recipient recipientWs _ _ ->. by left.
Qed.

(** *** Further properties of the handlers *)

(** X1: before it has joined, a socket is only listened to for JOIN_ROOM:
    an envelope of any other type leaves the hub as it is and nothing is
    sent. *)
Theorem unjoined_socket_ignored st ws clock message :
  sessions st !! ws = Some None →
  WSMessage.type message ≠ JOIN_ROOM →
  on_message toLowerCase clock st ws message = (st, []).
Proof.
  intros Hws Hty. unfold on_message. rewrite Hws.
  destruct (WSMessage.type message), (WSMessage.payload message); done.
Qed.

(** X2: a VIEWER_READY from a viewer whose room has a broadcaster is
    forwarded, as one VIEWER_READY envelope carrying the viewer's user
    record, to the socket of that broadcaster and to nobody else; the hub
    state is not changed. *)
Theorem viewer_ready_forwarded st ws U viewer room B broadcasterWs clock message :
  sessions st !! ws = Some (Some U) →
  users st !! U = Some viewer →
  User.role viewer = Viewer →
  rooms st !! User.roomId viewer = Some room →
  Room.broadcaster room = Some B →
  connections st !! B = Some broadcasterWs →
  WSMessage.type message = VIEWER_READY →
  on_message toLowerCase clock st ws message =
    (st, [(broadcasterWs,
           WSMessage.mk VIEWER_READY (ViewerReadyPayload viewer) (clock 0))]).
Proof.
  intros Hws Hu Hrole Hroom Hb Hconn Hty. unfold on_message. rewrite Hws, Hty.
  assert (viewer_ready clock st (Some U) =
          (st, [(broadcasterWs,
                 WSMessage.mk VIEWER_READY (ViewerReadyPayload viewer) (clock 0))]))
    as Heq.
  { unfold viewer_ready. rewrite Hu, Hrole. simpl. by rewrite Hroom, Hb, Hconn. }
  by destruct (WSMessage.payload message).
Qed.

(** X3: when a readiness signal is dropped.  STREAM_READY from an identity
    that is not a broadcaster, VIEWER_READY from an identity that is not a
    viewer, and VIEWER_READY sent while the room has no broadcaster (it has
    left, or none has come yet) change nothing and send nothing. *)
Theorem ready_signal_dropped st ws U user room clock message :
  sessions st !! ws = Some (Some U) →
  users st !! U = Some user →
  rooms st !! User.roomId user = Some room →
  (WSMessage.type message = STREAM_READY ∧ User.role user = Viewer) ∨
  (WSMessage.type message = VIEWER_READY ∧ User.role user = Broadcaster) ∨
  (WSMessage.type message = VIEWER_READY ∧ Room.broadcaster room = None) →
  on_message toLowerCase clock st ws message = (st, []).
Proof.
  intros Hws Hu Hroom [[Hty Hrole]|[[Hty Hrole]|[Hty Hb]]];
    unfold on_message; rewrite Hws, Hty.
  - assert (stream_ready clock st (Some U) = (st, [])) as Heq.
    { unfold stream_ready. by rewrite Hu, Hrole. }
    by destruct (WSMessage.payload message).
  - assert (viewer_ready clock st (Some U) = (st, [])) as Heq.
    { unfold viewer_ready. by rewrite Hu, Hrole. }
    by destruct (WSMessage.payload message).
  - assert (viewer_ready clock st (Some U) = (st, [])) as Heq.
    { unfold viewer_ready. rewrite Hu, Hroom, Hb. by case_bool_decide. }
    by destruct (WSMessage.payload message).
Qed.

Lemma notifyViewers_all st rid room B broadcaster clock viewers k :
  rooms st !! rid = Some room →
  Room.broadcaster room = Some B →
  users st !! B = Some broadcaster →
  (∀ v, v ∈ viewers → is_Some (connections st !! v)) →
  ∃ socks,
    Forall2 (λ v s, connections st !! v = Some s) viewers socks ∧
    notifyViewers st rid viewers clock k =
      imap (λ i s, (s, WSMessage.mk BROADCASTER_READY
                         (BroadcasterReadyPayload broadcaster) (clock (k + i))))
           socks.
Proof.
  intros Hroom Hb Hbu. revert k.
  induction viewers as [|v viewers IH]; intros k Hall.
  - exists []. split; [constructor|done].
  - destruct (Hall v) as [s Hs]; [by left|].
    destruct (IH (k + 1)) as (socks & Hsocks & Heq).
    { intros x Hx. apply Hall. by right. }
    exists (s :: socks). split; [by constructor|].
    cbn [notifyViewers]. unfold notifyViewerOfBroadcaster at 1 2.
    rewrite Hroom, Hb, Hbu, Hs. cbn [sendMessage length app].
    rewrite Heq. cbn [imap]. rewrite Nat.add_0_r. f_equal.
    apply imap_ext. intros i x _. simpl. do 3 f_equal. lia.
Qed.

(** X4: when the broadcaster of a room sends STREAM_READY, one
    BROADCASTER_READY envelope goes to the socket of every viewer of the room,
    in join order, each carrying the broadcaster's user record, and nothing
    else is sent; the clock is read anew for every envelope. *)
Theorem stream_ready_notifies_viewers st ws U rid room clock message :
  reachable toLowerCase st →
  sessions st !! ws = Some (Some U) →
  rooms st !! rid = Some room →
  Room.broadcaster room = Some U →
  WSMessage.type message = STREAM_READY →
  ∃ broadcaster socks,
    users st !! U = Some broadcaster ∧
    Forall2 (λ v s, connections st !! v = Some s) (Room.viewers room) socks ∧
    (on_message toLowerCase clock st ws message).2 =
      imap (λ i s, (s, WSMessage.mk BROADCASTER_READY
                         (BroadcasterReadyPayload broadcaster) (clock (1 + i))))
           socks.
Proof.
  intros Hst Hws Hroom Hb Hty. apply reachable_consistent in Hst.
  destruct (broadcaster_known _ _ Hst _ _ _ Hroom Hb) as (bu & Hbu & Hrid & Hrole).
  destruct (notifyViewers_all
              (set_activeStreams (<[rid := true]> (activeStreams st)) st)
              rid room U bu clock (Room.viewers room) 1)
    as (socks & Hsocks & Heq); try done.
  { intros v Hv. simpl.
    destruct (viewers_known _ _ Hst _ _ _ Hroom Hv) as (u & Hu & _).
    apply (users_connected _ _ Hst). by eexists. }
  exists bu, socks. split_and!; [done|done|].
  unfold on_message. rewrite Hws, Hty.
  assert (stream_ready clock st (Some U) =
          (set_activeStreams (<[rid := true]> (activeStreams st)) st,
           notifyViewers
             (set_activeStreams (<[rid := true]> (activeStreams st)) st)
             rid (Room.viewers room) clock 1)) as Hrun.
  { unfold stream_ready. rewrite Hbu, Hrole, Hrid. simpl. by rewrite Hroom. }
  destruct (WSMessage.payload message); rewrite Hrun; exact Heq.
Qed.

(** X5: STREAM_READY is idempotent on the state: a second STREAM_READY from
    the same broadcaster leaves the hub as the first one left it. *)
Theorem stream_ready_idempotent st ws U user clock clock' message :
  sessions st !! ws = Some (Some U) →
  users st !! U = Some user →
  WSMessage.type message = STREAM_READY →
  let st' := (on_message toLowerCase clock st ws message).1 in
  (on_message toLowerCase clock' st' ws message).1 = st'.
Proof.
  intros Hws Hu Hty. simpl.
  assert (∀ c s, sessions s !! ws = Some (Some U) →
                 (on_message toLowerCase c s ws message).1 =
                 (stream_ready c s (Some U)).1) as Hrun.
  { intros c s Hs. unfold on_message. rewrite Hs, Hty.
    by destruct (WSMessage.payload message). }
  assert (∀ c s, users s !! U = Some user →
                 (stream_ready c s (Some U)).1 =
                 if bool_decide (User.role user ≠ Broadcaster) then s
                 else set_activeStreams
                        (<[User.roomId user := true]> (activeStreams s)) s) as Hsr.
  { intros c s Hs. unfold stream_ready. rewrite Hs.
    case_bool_decide; [done|]. simpl. by destruct (rooms s !! User.roomId user). }
  rewrite (Hrun clock st Hws), (Hsr clock st Hu).
  case_bool_decide as Hrole.
  - by rewrite (Hrun clock' st Hws), (Hsr clock' st Hu).
  - rewrite Hrun by done. rewrite Hsr by done.
    unfold set_activeStreams. simpl. by rewrite insert_insert_eq.
Qed.

(** X6: a viewer that joins a room whose stream is active is told at once:
    the first envelope of the join is ROOM_JOINED to the joining socket, and
    the second is BROADCASTER_READY to the same socket, carrying the user
    record of the room's broadcaster. *)
Theorem late_viewer_told_at_once st ws cu clock roomId username sent room B :
  reachable toLowerCase st →
  sessions st !! ws = Some cu →
  rooms st !! roomId = Some room →
  Room.broadcaster room = Some B →
  activeStreams st !! roomId = Some true →
  isUsernameTaken toLowerCase st roomId username = false →
  ∃ broadcaster joined rest,
    users st !! B = Some broadcaster ∧
    WSMessage.type joined = ROOM_JOINED ∧
    (on_message toLowerCase clock st ws (join_request roomId username Viewer sent)).2 =
      (ws, joined)
      :: (ws, WSMessage.mk BROADCASTER_READY
                (BroadcasterReadyPayload broadcaster) (clock 1))
      :: rest.
Proof.
  intros Hst Hws Hroom Hb Hact Hfree. apply reachable_consistent in Hst.
  destruct (broadcaster_known _ _ Hst _ _ _ Hroom Hb) as (bu & Hbu & _ & _).
  pose proof (fresh_user _ _ Hst) as Hfresh.
  assert (uuidv4 (minted st) ≠ B) as Hne by congruence.
  exists bu. unfold on_message, join_request. rewrite Hws. simpl.
  unfold join_room. rewrite Hroom, Hfree. simpl.
  unfold seat. simpl. rewrite Hroom. simpl. rewrite Hb, Hact.
  rewrite !bool_decide_eq_true_2 by (done || by eexists). simpl.
  unfold notifyViewerOfBroadcaster. simpl.
  rewrite !lookup_insert_eq. simpl.
  rewrite lookup_insert_ne by done. rewrite Hbu. simpl.
  eexists _, _. split_and!; [done| |reflexivity]. done.
Qed.

(** X7: what an accepted JOIN_ROOM for an existing room does.  The request
    is accepted when the username is free in the room and, for a
    broadcaster, the seat is free - a room whose broadcaster has left can be
    taken over, and a viewer may join a room without broadcaster.  The new
    identity is registered under a fresh id for the requesting socket, a
    broadcaster takes the seat, a viewer is put after the viewers already
    there, the chat logs are untouched, and the first envelope sent is
    ROOM_JOINED to the requester, with the room as it is after the join and the
    last 50 messages of the room. *)
Theorem join_accepted st ws cu clock roomId username role sent room :
  sessions st !! ws = Some cu →
  rooms st !! roomId = Some room →
  isUsernameTaken toLowerCase st roomId username = false →
  (role = Broadcaster → Room.broadcaster room = None) →
  let result :=
    on_message toLowerCase clock st ws (join_request roomId username role sent) in
  let newUserId := uuidv4 (minted st) in
  let user := User.mk newUserId username role roomId in
  users result.1 !! newUserId = Some user ∧
  connections result.1 !! newUserId = Some ws ∧
  sessions result.1 !! ws = Some (Some newUserId) ∧
  rooms result.1 !! roomId =
    Some (match role with
          | Broadcaster =>
              Room.mk (Room.id room) (Room.name room) (Some newUserId)
                      (Room.viewers room)
          | Viewer =>
              Room.mk (Room.id room) (Room.name room) (Room.broadcaster room)
                      (Room.viewers room ++ [newUserId])
          end) ∧
  chatMessages result.1 = chatMessages st ∧
  head result.2 =
    Some (ws, WSMessage.mk ROOM_JOINED
                (RoomJoinedPayload (getRoomWithUsers result.1 roomId) user
                   (getRoomMessages st roomId 50))
                (clock 0)).
Proof.
  intros Hws Hroom Hfree Hseat. simpl.
  unfold on_message, join_request. rewrite Hws. simpl.
  unfold join_room. rewrite Hroom, Hfree.
  assert (bool_decide (role = Broadcaster)
          && bool_decide (is_Some (Room.broadcaster room)) = false) as ->.
  { destruct role; [|done]. rewrite Hseat by done.
    rewrite (bool_decide_eq_false_2 (is_Some None)); [done|]. by intros [? ?]. }
  unfold seat. simpl. rewrite Hroom. simpl.
  rewrite !lookup_insert_eq. done.
Qed.

Lemma fan_out_omap (conns : gmap string WebSocket) (message : WSMessage.t)
    (ex : option string) (ids : list string) :
  (∀ uid, uid ∈ ids → ex ≠ Some uid) →
  flat_map
    (λ userId,
       if decide (ex = Some userId) then []
       else match conns !! userId with
            | Some userWs => sendMessage userWs message
            | None => []
            end) ids
  = map (λ s, (s, message)) (omap (λ uid, conns !! uid) ids).
Proof.
  induction ids as [|uid ids IH]; intros Hex; [done|].
  cbn [flat_map omap]. rewrite IH by (intros x Hx; apply Hex; by right).
  destruct (decide (ex = Some uid)) as [Heq|_].
  { destruct (Hex uid); [by left|done]. }
  simpl. by destruct (conns !! uid).
Qed.

Lemma omap_resolved (conns : gmap string WebSocket) (ids : list string) :
  (∀ uid, uid ∈ ids → is_Some (conns !! uid)) →
  Forall2 (λ uid s, conns !! uid = Some s) ids (omap (λ uid, conns !! uid) ids).
Proof.
  induction ids as [|uid ids IH]; intros Hall; [constructor|].
  destruct (Hall uid) as [s Hs]; [by left|].
  simpl. rewrite Hs. constructor; [done|].
  apply IH. intros x Hx. apply Hall. by right.
Qed.

(** What a close sends, for a socket that holds a seated identity. *)
Lemma on_close_joined_out clock st ws cu user room :
  sessions st !! ws = Some (Some cu) →
  users st !! cu = Some user →
  rooms st !! User.roomId user = Some room →
  (on_close clock st ws).2 =
    let st' :=
      set_rooms (<[User.roomId user := vacate cu user room]> (rooms st)) st in
    let roomWithUsers := getRoomWithUsers st' (User.roomId user) in
    let left :=
      broadcastToRoom st' (User.roomId user)
        (WSMessage.mk USER_LEFT (UserLeftPayload user roomWithUsers) (clock 0))
        (Some cu) in
    if bool_decide (Room.broadcaster (vacate cu user room) = None)
       && bool_decide (length (Room.viewers (vacate cu user room)) = 0)
    then left
    else left ++
         broadcastToRoom st' (User.roomId user)
           (WSMessage.mk ROOM_STATE (RoomStatePayload roomWithUsers) (clock 1))
           None.
Proof.
  intros Hws Hu Hroom. unfold on_close. rewrite Hws. simpl. rewrite Hu.
  destruct (User.role user) eqn:Hrole; simpl; rewrite Hroom;
    unfold vacate; rewrite Hrole; simpl;
    repeat case_bool_decide; reflexivity.
Qed.

Lemma vacate_remaining st cu user room :
  consistent None st →
  users st !! cu = Some user →
  rooms st !! User.roomId user = Some room →
  (cu ∉ userIds (vacate cu user room)) ∧
  ∀ uid, uid ∈ userIds (vacate cu user room) → uid ∈ userIds room.
Proof.
  intros C Hu Hroom. unfold vacate, userIds.
  destruct (User.role user) eqn:Hrole; simpl.
  - split; [|intros uid Hin; apply elem_of_app; by right].
    intros Hin. destruct (viewers_known _ _ C _ _ _ Hroom Hin) as (u & Hu' & _ & Hr).
    congruence.
  - split.
    + intros [Hin|Hin]%elem_of_app.
      * destruct (Room.broadcaster room) as [b|] eqn:Hb; simpl in Hin;
          [|by apply elem_of_nil in Hin].
        apply list_elem_of_singleton in Hin as <-.
        destruct (broadcaster_known _ _ C _ _ _ Hroom Hb) as (u & Hu' & _ & Hr).
        congruence.
      * by apply list_elem_of_filter in Hin as [? _].
    + intros uid [Hin|Hin]%elem_of_app; apply elem_of_app; [by left|right].
      by apply list_elem_of_filter in Hin as [_ ?].
Qed.

(** X8: a member leaves a room in which others remain.  When the socket
    holding the identity [U] closes, [U] is taken out of the room (the
    broadcaster seat is cleared, or the viewer is removed with the order of
    the others kept), its user and connection entries are deleted, the room
    and its chat log stay, and the members that remain are each sent
    USER_LEFT, and then each ROOM_STATE; [U] is not among them. *)
Theorem departure_notifies_remaining st ws U user room clock :
  reachable toLowerCase st →
  sessions st !! ws = Some (Some U) →
  users st !! U = Some user →
  rooms st !! User.roomId user = Some room →
  userIds (vacate U user room) ≠ [] →
  let result := on_close clock st ws in
  rooms result.1 !! User.roomId user = Some (vacate U user room) ∧
  users result.1 !! U = None ∧
  connections result.1 !! U = None ∧
  sessions result.1 !! ws = None ∧
  chatMessages result.1 = chatMessages st ∧
  (U ∉ userIds (vacate U user room)) ∧
  let snapshot :=
    getRoomWithUsers
      (set_rooms (<[User.roomId user := vacate U user room]> (rooms st)) st)
      (User.roomId user) in
  ∃ socks,
    Forall2 (λ uid s, connections st !! uid = Some s)
            (userIds (vacate U user room)) socks ∧
    result.2 =
      map (λ s, (s, WSMessage.mk USER_LEFT (UserLeftPayload user snapshot) (clock 0)))
          socks ++
      map (λ s, (s, WSMessage.mk ROOM_STATE (RoomStatePayload snapshot) (clock 1)))
          socks.
Proof.
  intros Hst Hws Hu Hroom Hrest. apply reachable_consistent in Hst. simpl.
  destruct (vacate_remaining _ _ _ _ Hst Hu Hroom) as [Hout Hsub].
  assert (bool_decide (Room.broadcaster (vacate U user room) = None)
          && bool_decide (length (Room.viewers (vacate U user room)) = 0) = false)
    as Hkeep.
  { apply andb_false_iff. unfold userIds in Hrest.
    destruct (Room.broadcaster (vacate U user room)).
    - left. by apply bool_decide_eq_false_2.
    - right. apply bool_decide_eq_false_2. intros Hlen.
      apply length_zero_iff_nil in Hlen. by rewrite Hlen in Hrest. }
  rewrite (on_close_joined _ _ _ _ _ _ Hws Hu Hroom).
  rewrite (on_close_joined_out _ _ _ _ _ _ Hws Hu Hroom).
  cbv zeta. rewrite Hkeep. simpl.
  rewrite lookup_insert_eq, !lookup_delete_eq.
  split_and!; try done.
  exists (omap (λ uid, connections st !! uid) (userIds (vacate U user room))).
  split.
  - apply omap_resolved. intros uid Hin.
    destruct (member_known _ _ _ _ Hst Hroom (Hsub _ Hin)) as (? & s & _ & _ & Hs).
    by eexists.
  - unfold broadcastToRoom, set_rooms. cbn [rooms connections].
    rewrite lookup_insert_eq.
    rewrite (fan_out_omap _ _ (Some U)) by (intros uid Hin [= ->]; done).
    by rewrite (fan_out_omap _ _ None).
Qed.

(** X9: the last member leaves.  When the socket holding the only
    identity of a room closes, the room and its chat log are deleted, the
    stream flag of the room is gone, the identity's user and connection
    entries are deleted, and nothing is sent. *)
Theorem last_departure_deletes_room st ws U user room clock :
  reachable toLowerCase st →
  sessions st !! ws = Some (Some U) →
  users st !! U = Some user →
  rooms st !! User.roomId user = Some room →
  userIds (vacate U user room) = [] →
  let result := on_close clock st ws in
  rooms result.1 !! User.roomId user = None ∧
  chatMessages result.1 !! User.roomId user = None ∧
  activeStreams result.1 !! User.roomId user ≠ Some true ∧
  users result.1 !! U = None ∧
  connections result.1 !! U = None ∧
  result.2 = [].
Proof.
  intros Hst Hws Hu Hroom Hrest. simpl.
  pose proof (reachable_step toLowerCase st (Close ws clock) Hst) as Hst'.
  apply reachable_consistent in Hst'. simpl in Hst'.
  apply reachable_consistent in Hst.
  assert (bool_decide (Room.broadcaster (vacate U user room) = None)
          && bool_decide (length (Room.viewers (vacate U user room)) = 0) = true)
    as Hdrop.
  { unfold userIds in Hrest. apply app_eq_nil in Hrest as [Hb Hv].
    rewrite Hv. destruct (Room.broadcaster (vacate U user room)); [done|].
    by rewrite !bool_decide_eq_true_2. }
  assert (rooms (on_close clock st ws).1 !! User.roomId user = None) as Hgone.
  { rewrite (on_close_joined _ _ _ _ _ _ Hws Hu Hroom). cbv zeta. rewrite Hdrop.
    simpl. apply lookup_delete_eq. }
  split_and!.
  - done.
  - rewrite (on_close_joined _ _ _ _ _ _ Hws Hu Hroom). cbv zeta. rewrite Hdrop.
    simpl. apply lookup_delete_eq.
  - intros Hact. destruct (active_broadcast _ _ Hst' _ Hact) as (r & Hr & _).
    congruence.
  - rewrite (on_close_joined _ _ _ _ _ _ Hws Hu Hroom). cbv zeta. rewrite Hdrop.
    simpl. apply lookup_delete_eq.
  - rewrite (on_close_joined _ _ _ _ _ _ Hws Hu Hroom). cbv zeta. rewrite Hdrop.
    simpl. apply lookup_delete_eq.
  - rewrite (on_close_joined_out _ _ _ _ _ _ Hws Hu Hroom). cbv zeta.
    rewrite Hdrop. unfold broadcastToRoom. simpl. rewrite lookup_insert_eq.
    by rewrite Hrest.
Qed.

Lemma tidy_initial : tidy toLowerCase initial.
Proof.
  split; simpl; intros *; rewrite ?lookup_empty; try done.
Qed.

Lemma seat_tidy clock st ws roomId username role room :
  tidy toLowerCase st →
  rooms st !! roomId = Some room →
  (∀ uid u, users st !! uid = Some u → User.roomId u = roomId →
            toLowerCase (User.username u) ≠ toLowerCase username) →
  users st !! uuidv4 (minted st) = None →
  tidy toLowerCase (seat clock st ws roomId username role).1.
Proof.
  intros [Tun Tlog Tact Tfiled] Hroom Hfree Hfresh.
  unfold seat. simpl. rewrite Hroom. simpl.
  split; simpl.
  - intros uid1 uid2 u1 u2. rewrite !lookup_insert_Some.
    intros [[<- <-]|[Hn1 Hu1]] [[<- <-]|[Hn2 Hu2]]; simpl; try done.
    + intros Hrid Hname. destruct (Hfree _ _ Hu2); done.
    + intros Hrid Hname. destruct (Hfree _ _ Hu1); done.
    + eauto.
  - intros rid. rewrite lookup_insert_is_Some'. intros [->|Hr]; [|eauto].
    apply Tlog. by eexists.
  - done.
  - intros rid log m Hlog Hm. destruct (Tfiled _ _ _ Hlog Hm) as (? & n & ? & ?).
    split; [done|]. exists n. split; [lia|done].
Qed.

Lemma join_room_tidy clock st ws roomId username role :
  consistent None st →
  tidy toLowerCase st →
  tidy toLowerCase (join_room toLowerCase clock st ws roomId username role).1.
Proof.
  intros C T. pose proof (fresh_user _ _ C) as Hfresh.
  unfold join_room. destruct (rooms st !! roomId) as [room|] eqn:Hr.
  - destruct (isUsernameTaken _ _ _ _) eqn:Htaken; [done|].
    destruct (bool_decide (role = Broadcaster) && _); [done|].
    eapply seat_tidy; [done|done| |done].
    intros uid u Hu Hrid Hname.
    assert (isUsernameTaken toLowerCase st roomId username = true); [|congruence].
    apply isUsernameTaken_true. split; [by eexists|]. by exists uid, u.
  - destruct role; [|done].
    eapply seat_tidy; [|simpl; apply lookup_insert_eq| |done].
    + destruct T as [Tun Tlog Tact Tfiled]. split; simpl; try done.
      * intros rid. rewrite lookup_insert_is_Some, lookup_insert_is_Some'.
        intros [->|[_ Hc]]; [by left|right; eauto].
      * intros rid log m. rewrite lookup_insert_Some.
        intros [[<- <-]|[_ Hlog]]; [by intros ?%elem_of_nil|eauto].
    + simpl. intros uid u Hu Hrid.
      destruct (users_seated _ _ C _ _ Hu) as (_ & r & Hr' & _). congruence.
Qed.

Lemma chat_message_tidy clock st ws cu chatMessage :
  consistent None st →
  tidy toLowerCase st →
  tidy toLowerCase (chat_message clock st ws cu chatMessage).1.
Proof.
  intros C T. unfold chat_message. destruct cu as [cu|]; [|done].
  destruct (users st !! cu) as [user|] eqn:Hu; [|done].
  assert (tidy toLowerCase
    (set_chatMessages
       (<[User.roomId user :=
            default [] (chatMessages st !! User.roomId user) ++
            [ChatMessage.mk (uuidv4 (minted st)) (User.id user)
               (User.username user) (User.roomId user)
               (ChatMessage.content chatMessage) (ChatMessage.type chatMessage)
               (ChatMessage.recipientId chatMessage) (clock 1)]]>
          (chatMessages st))
       (set_minted (S (minted st)) st))) as T'.
  { destruct T as [Tun Tlog Tact Tfiled]. split; simpl; try done.
    - intros rid Hr. rewrite lookup_insert_is_Some'. right. eauto.
    - intros rid log m. rewrite lookup_insert_Some.
      intros [[<- <-]|[_ Hlog]] Hm.
      + apply elem_of_app in Hm as [Hm|Hm].
        * destruct (chatMessages st !! User.roomId user) as [old|] eqn:Hold;
            simpl in Hm; [|by apply elem_of_nil in Hm].
          destruct (Tfiled _ _ _ Hold Hm) as (? & n & ? & ?).
          split; [done|]. exists n. split; [lia|done].
        * apply list_elem_of_singleton in Hm as ->. simpl.
          split; [done|]. exists (minted st). split; [lia|done].
      + destruct (Tfiled _ _ _ Hlog Hm) as (? & n & ? & ?).
        split; [done|]. exists n. split; [lia|done]. }
  simpl. destruct (_ && _); done.
Qed.

Lemma stream_ready_tidy clock st cu :
  tidy toLowerCase st → tidy toLowerCase (stream_ready clock st cu).1.
Proof.
  intros T. unfold stream_ready. destruct cu as [cu|]; [|done].
  destruct (users st !! cu) as [user|] eqn:Hu; [|done].
  case_bool_decide; [done|].
  assert (tidy toLowerCase
    (set_activeStreams (<[User.roomId user := true]> (activeStreams st)) st)) as T'.
  { destruct T as [Tun Tlog Tact Tfiled]. split; simpl; try done.
    intros rid b. rewrite lookup_insert_Some. intros [[_ <-]|[_ Hb]]; eauto. }
  simpl. destruct (rooms st !! User.roomId user); done.
Qed.

Lemma on_message_tidy clock st ws message :
  consistent None st →
  tidy toLowerCase st →
  tidy toLowerCase (on_message toLowerCase clock st ws message).1.
Proof.
  intros C T. unfold on_message. destruct (sessions st !! ws) as [cu|]; [|done].
  destruct (WSMessage.type message), (WSMessage.payload message); try done;
    auto using join_room_tidy, chat_message_tidy, stream_ready_tidy;
    by rewrite ?viewer_ready_state, ?signal_state.
Qed.

Lemma on_close_tidy clock st ws :
  consistent None st →
  tidy toLowerCase st →
  tidy toLowerCase (on_close clock st ws).1.
Proof.
  intros C [Tun Tlog Tact Tfiled].
  destruct (sessions st !! ws) as [[cu|]|] eqn:Hws.
  - destruct (session_bound _ _ C _ _ Hws) as [[user Hu] Hconn].
    destruct (users_seated _ _ C _ _ Hu) as (Hid & room & Hroom & Hseat).
    rewrite (on_close_joined _ _ _ _ _ _ Hws Hu Hroom). cbv zeta.
    assert (∀ rid b,
      match User.role user with
      | Broadcaster => delete (User.roomId user) (activeStreams st)
      | Viewer => activeStreams st
      end !! rid = Some b → b = true) as Hact.
    { intros rid b. destruct (User.role user); [|eauto].
      rewrite lookup_delete_Some. intros [_ ?]. eauto. }
    destruct (_ && _); split; simpl.
    + intros uid1 uid2 u1 u2. rewrite !lookup_delete_Some.
      intros [_ ?] [_ ?]. eauto.
    + intros rid. rewrite !lookup_delete_is_Some, lookup_insert_is_Some'.
      intros [Hne [?|Hr]]; [done|]. split; [done|eauto].
    + done.
    + intros rid log m. rewrite lookup_delete_Some. intros [_ ?]. eauto.
    + intros uid1 uid2 u1 u2. rewrite !lookup_delete_Some.
      intros [_ ?] [_ ?]. eauto.
    + intros rid. rewrite lookup_insert_is_Some'. intros [<-|Hr]; [|eauto].
      apply Tlog. by eexists.
    + done.
    + done.
  - unfold on_close. rewrite Hws. by split.
  - unfold on_close. rewrite Hws. by split.
Qed.

Lemma reachable_tidy st : reachable toLowerCase st → tidy toLowerCase st.
Proof.
  induction 1 as [|st ev Hst IH]; [apply tidy_initial|].
  pose proof (reachable_consistent _ Hst) as C.
  destruct ev; simpl.
  - destruct IH. by split.
  - by apply on_message_tidy.
  - by apply on_close_tidy.
Qed.

(** X10: in every reachable state the usernames of a room are unique up to
    letter case: two different identities of one room have usernames that
    differ after [toLowerCase]. *)
Theorem usernames_unique_in_room st uid1 uid2 u1 u2 :
  reachable toLowerCase st →
  users st !! uid1 = Some u1 →
  users st !! uid2 = Some u2 →
  User.roomId u1 = User.roomId u2 →
  uid1 ≠ uid2 →
  toLowerCase (User.username u1) ≠ toLowerCase (User.username u2).
Proof.
  intros Hst H1 H2 Hrid Hne Hname. apply reachable_tidy in Hst.
  apply Hne. by eapply (usernames_unique _ _ Hst).
Qed.

(** X11: in every reachable state the three registries agree.  Every id in
    the broadcaster seat or the viewer list of a room has a user record that
    carries this id and this room and has the role of the seat, and it has a
    connection entry; every user record is seated in the room it names; and an
    id has a user record exactly when it has a connection entry. *)
Theorem registries_agree st :
  reachable toLowerCase st →
  (∀ rid room uid,
     rooms st !! rid = Some room → uid ∈ userIds room →
     ∃ u s, users st !! uid = Some u ∧ connections st !! uid = Some s ∧
            User.id u = uid ∧ User.roomId u = rid ∧
            (User.role u = Broadcaster ↔ Room.broadcaster room = Some uid))
  ∧ (∀ uid u, users st !! uid = Some u →
       ∃ room, rooms st !! User.roomId u = Some room ∧ uid ∈ userIds room)
  ∧ (∀ uid, is_Some (users st !! uid) ↔ is_Some (connections st !! uid)).
Proof.
  intros Hst. apply reachable_consistent in Hst. split_and!.
  - intros rid room uid Hroom Hin.
    destruct (member_known _ _ _ _ Hst Hroom Hin) as (u & s & Hu & Hrid & Hs).
    destruct (users_seated _ _ Hst _ _ Hu) as (Hid & r & Hr & Hseat).
    rewrite Hrid in Hr. assert (r = room) as -> by congruence.
    exists u, s. split_and!; try done. split.
    + intros Hrole. by rewrite Hrole in Hseat.
    + intros Hb. destruct (broadcaster_known _ _ Hst _ _ _ Hroom Hb) as (u' & ? & _ & ?).
      congruence.
  - intros uid u Hu. destruct (users_seated _ _ Hst _ _ Hu) as (_ & r & Hr & Hseat).
    exists r. split; [done|]. unfold userIds. apply elem_of_app.
    destruct (User.role u); [left|by right]. rewrite Hseat. by left.
  - apply Hst.
Qed.

(** X12: rooms and chat logs live together: in every reachable state a room
    id has a chat log exactly when it has a room. *)
Theorem room_and_log_together st rid :
  reachable toLowerCase st →
  is_Some (rooms st !! rid) ↔ is_Some (chatMessages st !! rid).
Proof.
  intros Hst. split.
  - apply reachable_tidy in Hst. apply Hst.
  - apply reachable_consistent in Hst. apply Hst.
Qed.

Lemma slice_subset {A} start (l : list A) x : x ∈ slice start l → x ∈ l.
Proof.
  unfold slice. intros Hin. apply list_elem_of_lookup in Hin as [i Hi].
  rewrite lookup_drop in Hi. by eapply list_elem_of_lookup_2.
Qed.

(** X13: a history read never shows the messages of another room: in every
    reachable state each message returned for a room id carries this room
    id, whatever the limit. *)
Theorem history_of_own_room st rid limit m :
  reachable toLowerCase st →
  m ∈ getRoomMessages st rid limit →
  ChatMessage.roomId m = rid.
Proof.
  intros Hst Hin. apply reachable_tidy in Hst.
  unfold getRoomMessages in Hin. apply slice_subset in Hin.
  destruct (chatMessages st !! rid) as [log|] eqn:Hlog; simpl in Hin;
    [|by apply elem_of_nil in Hin].
  by destruct (log_filed _ _ Hst _ _ _ Hlog Hin).
Qed.

Lemma slice_snoc_last {A} (limit : Z) (l : list A) (x : A) :
  (0 < limit)%Z → last (slice (- limit) (l ++ [x])) = Some x.
Proof.
  intros Hpos. unfold slice.
  destruct (Z.ltb_spec (- limit) 0) as [_|?]; [|lia].
  rewrite length_app. simpl.
  rewrite drop_app_le by lia. apply last_snoc.
Qed.

(** X14: every CHAT_MESSAGE of a joined user, public or private, is put at
    the end of the chat log of the sender's room, as minted by the server:
    the id, the sender fields, the room id and the timestamp that the client
    wrote are replaced.  Nothing is trimmed, the other logs are as before,
    and a history read of the room with a positive limit now ends with this
    message - a private one too. *)
Theorem chat_message_logged st ws U user clock chatMessage sent limit :
  sessions st !! ws = Some (Some U) →
  users st !! U = Some user →
  (0 < limit)%Z →
  let st' := (on_message toLowerCase clock st ws (chat_request chatMessage sent)).1 in
  let newMessage :=
    ChatMessage.mk (uuidv4 (minted st)) (User.id user) (User.username user)
      (User.roomId user) (ChatMessage.content chatMessage)
      (ChatMessage.type chatMessage) (ChatMessage.recipientId chatMessage)
      (clock 1) in
  chatMessages st' !! User.roomId user =
    Some (default [] (chatMessages st !! User.roomId user) ++ [newMessage]) ∧
  (∀ rid, rid ≠ User.roomId user → chatMessages st' !! rid = chatMessages st !! rid) ∧
  last (getRoomMessages st' (User.roomId user) limit) = Some newMessage.
Proof.
  intros Hws Hu Hpos. simpl. unfold on_message, chat_request. rewrite Hws. simpl.
  unfold chat_message. rewrite Hu.
  destruct (_ && _); simpl; unfold getRoomMessages; simpl; rewrite lookup_insert_eq;
    (split_and!;
     [done|intros rid Hne; by rewrite lookup_insert_ne|by apply slice_snoc_last]).
Qed.

(** X15: a history read with a positive limit returns the most recent
    messages of the log, oldest first: the result is the end of the log, of
    length the smaller of the limit and the length of the log. *)
Theorem history_is_tail st rid limit :
  (0 < limit)%Z →
  let log := default [] (chatMessages st !! rid) in
  let result := getRoomMessages st rid limit in
  length result = Nat.min (Z.to_nat limit) (length log) ∧
  ∃ older, log = older ++ result.
Proof.
  intros Hpos. simpl. unfold getRoomMessages, slice.
  set (log := default [] (chatMessages st !! rid)).
  destruct (Z.ltb_spec (- limit) 0) as [_|?]; [|lia]. split.
  - rewrite length_drop. lia.
  - eexists. symmetry. apply take_drop.
Qed.

(** X16: the limits that are not positive.  A direct read with limit 0
    returns the whole log; on the REST route a limit that is 0 or not a number
    is replaced by 50; and a negative limit -n is passed on as it is, so that
    the route returns the log without its first n messages. *)
Theorem history_limit_edges st rid n :
  (0 < n)%Z →
  let log := default [] (chatMessages st !! rid) in
  getRoomMessages st rid 0 = log ∧
  api_room_messages st rid (Some 0%Z) = getRoomMessages st rid 50 ∧
  api_room_messages st rid None = getRoomMessages st rid 50 ∧
  api_room_messages st rid (Some (- n)%Z) = drop (Z.to_nat n) log.
Proof.
  intros Hpos. simpl. split_and!.
  - unfold getRoomMessages, slice. change (- 0)%Z with 0%Z.
    rewrite Z.min_l by lia. done.
  - done.
  - done.
  - unfold api_room_messages, getRoomMessages, slice.
    destruct (Z.eqb_spec (- n) 0) as [?|_]; [lia|].
    destruct (Z.ltb_spec (- - n) 0) as [?|_]; [lia|].
    set (log := default [] (chatMessages st !! rid)).
    destruct (Nat.le_gt_cases (length log) (Z.to_nat n)).
    + rewrite !drop_ge; [done|lia|lia].
    + f_equal. lia.
Qed.

(** X17: a CHAT_MESSAGE marked private that names no recipient (the field
    is missing or is the empty string) is treated as a public one: it goes to
    every member of the sender's room, the sender included. *)
Theorem private_without_recipient_is_public st ws U user clock chatMessage sent :
  reachable toLowerCase st →
  sessions st !! ws = Some (Some U) →
  users st !! U = Some user →
  ChatMessage.type chatMessage = private →
  ChatMessage.recipientId chatMessage = None ∨
  ChatMessage.recipientId chatMessage = Some EmptyString →
  let newMessage :=
    ChatMessage.mk (uuidv4 (minted st)) U (User.username user) (User.roomId user)
      (ChatMessage.content chatMessage) private
      (ChatMessage.recipientId chatMessage) (clock 1) in
  let received :=
    WSMessage.mk CHAT_MESSAGE_RECEIVED (ChatMessagePayload newMessage) (clock 1) in
  ∃ room socks,
    rooms st !! User.roomId user = Some room ∧
    U ∈ userIds room ∧
    Forall2 (λ uid s, connections st !! uid = Some s) (userIds room) socks ∧
    (on_message toLowerCase clock st ws (chat_request chatMessage sent)).2 =
      map (λ s, (s, received)) socks.
Proof.
  intros Hst Hws Hu Hty Hrec. apply reachable_consistent in Hst. simpl.
  destruct (users_seated _ _ Hst _ _ Hu) as (Hid & room & Hroom & Hseat).
  assert (truthy (ChatMessage.recipientId chatMessage) = false) as Hfalsy.
  { by destruct Hrec as [-> | ->]. }
  exists room,
    (omap (λ uid, connections st !! uid) (userIds room)).
  split_and!; [done| | |].
  - unfold userIds. apply elem_of_app.
    destruct (User.role user); [left|by right]. rewrite Hseat. by left.
  - apply omap_resolved. intros uid Hin.
    destruct (member_known _ _ _ _ Hst Hroom Hin) as (? & s & _ & _ & Hs).
    by eexists.
  - unfold on_message, chat_request. rewrite Hws. cbn [WSMessage.type WSMessage.payload].
    unfold chat_message. rewrite Hu, Hid, Hty, Hfalsy, andb_false_r.
    cbn [snd]. unfold broadcastToRoom, set_chatMessages, set_minted.
    cbn [rooms connections]. rewrite Hroom.
    by rewrite (fan_out_omap _ _ None).
Qed.

(** X18: a private CHAT_MESSAGE whose recipient id is not in the connection
    registry reaches nobody but its sender, who is sent the one copy. *)
Theorem private_to_unknown_recipient st ws U user clock chatMessage sent R :
  sessions st !! ws = Some (Some U) →
  users st !! U = Some user →
  ChatMessage.type chatMessage = private →
  ChatMessage.recipientId chatMessage = Some R →
  R ≠ EmptyString →
  connections st !! R = None →
  (on_message toLowerCase clock st ws (chat_request chatMessage sent)).2 =
    [(ws, WSMessage.mk CHAT_MESSAGE_RECEIVED
            (ChatMessagePayload
               (ChatMessage.mk (uuidv4 (minted st)) (User.id user)
                  (User.username user) (User.roomId user)
                  (ChatMessage.content chatMessage) private (Some R) (clock 1)))
            (clock 1))].
Proof.
  intros Hws Hu Hty HR Hne Hconn.
  assert (truthy (Some R) = true) as Htruthy.
  { unfold truthy. destruct (String.eqb_spec R EmptyString); done. }
  unfold on_message, chat_request. rewrite Hws. simpl.
  unfold chat_message. rewrite Hu, Hty, HR, Htruthy. simpl. by rewrite Hconn.
Qed.

Lemma resolve_all (reg : gmap string User.t) (ids : list string) :
  (∀ uid, uid ∈ ids → is_Some (reg !! uid)) →
  Forall2 (λ uid u, reg !! uid = Some u) ids
          (flat_map (λ uid, option_list (reg !! uid)) ids).
Proof.
  induction ids as [|uid ids IH]; intros Hall; [constructor|].
  destruct (Hall uid) as [u Hu]; [by left|].
  cbn [flat_map]. rewrite Hu. simpl. constructor; [done|].
  apply IH. intros x Hx. apply Hall. by right.
Qed.

(** X19: the room snapshot sent in ROOM_JOINED, ROOM_STATE and USER_LEFT.
    In every reachable state the snapshot of a room copies the id, name,
    broadcaster and viewers of the room, and lists the user records of all its
    members, none skipped: the broadcaster first if there is one, then the
    viewers in join order. *)
Theorem snapshot_lists_members st rid room :
  reachable toLowerCase st →
  rooms st !! rid = Some room →
  ∃ members,
    getRoomWithUsers st rid =
      Some (RoomWithUsers.mk (Room.id room) (Room.name room)
              (Room.broadcaster room) (Room.viewers room) members) ∧
    Forall2 (λ uid u, users st !! uid = Some u) (userIds room) members.
Proof.
  intros Hst Hroom. apply reachable_consistent in Hst.
  unfold getRoomWithUsers. rewrite Hroom. eexists. split; [reflexivity|].
  unfold userIds. apply Forall2_app.
  - destruct (Room.broadcaster room) as [b|] eqn:Hb; [|constructor].
    destruct (broadcaster_known _ _ Hst _ _ _ Hroom Hb) as (u & Hu & _).
    rewrite Hu. simpl. by repeat constructor.
  - apply resolve_all. intros uid Hin.
    destruct (viewers_known _ _ Hst _ _ _ Hroom Hin) as (u & Hu & _). by eexists.
Qed.

Lemma filter_keeps_all (P : string → Prop) `{∀ x, Decision (P x)} (l : list string) :
  (∀ x, x ∈ l → P x) → filter P l = l.
Proof.
  induction l as [|x l IH]; intros Hall; [done|].
  rewrite filter_cons_True by (apply Hall; by left).
  f_equal. apply IH. intros y Hy. apply Hall. by right.
Qed.

Lemma vacate_after_seat newUserId username role roomId room :
  (role = Broadcaster → Room.broadcaster room = None) →
  newUserId ∉ Room.viewers room →
  vacate newUserId (User.mk newUserId username role roomId)
    match role with
    | Broadcaster =>
        Room.mk (Room.id room) (Room.name room) (Some newUserId) (Room.viewers room)
    | Viewer =>
        Room.mk (Room.id room) (Room.name room) (Room.broadcaster room)
                (Room.viewers room ++ [newUserId])
    end = room.
Proof.
  intros Hseat Hfresh. unfold vacate. destruct room as [i n b v]. simpl in *.
  destruct role; simpl.
  - by rewrite Hseat.
  - rewrite filter_app.
    rewrite (filter_cons_False _ newUserId []); [|intros Hne; by apply Hne].
    rewrite filter_nil, app_nil_r, filter_keeps_all; [done|]. intros x Hx ->. done.
Qed.

Lemma seat_then_close clock clock' s ws roomId username role room :
  rooms s !! roomId = Some room →
  users s !! uuidv4 (minted s) = None →
  connections s !! uuidv4 (minted s) = None →
  (role = Broadcaster → Room.broadcaster room = None) →
  (role = Broadcaster → activeStreams s !! roomId = None) →
  uuidv4 (minted s) ∉ Room.viewers room →
  let s' := (on_close clock' (seat clock s ws roomId username role).1 ws).1 in
  users s' = users s ∧ connections s' = connections s ∧
  activeStreams s' = activeStreams s ∧
  if bool_decide (Room.broadcaster room = None)
     && bool_decide (length (Room.viewers room) = 0)
  then rooms s' = delete roomId (rooms s) ∧
       chatMessages s' = delete roomId (chatMessages s)
  else rooms s' = rooms s ∧ chatMessages s' = chatMessages s.
Proof.
  intros Hroom Hu Hc Hseat Hact Hfresh.
  set (new := uuidv4 (minted s)) in *.
  set (user := User.mk new username role roomId).
  set (room' := match role with
                | Broadcaster =>
                    Room.mk (Room.id room) (Room.name room) (Some new)
                            (Room.viewers room)
                | Viewer =>
                    Room.mk (Room.id room) (Room.name room) (Room.broadcaster room)
                            (Room.viewers room ++ [new])
                end).
  assert ((seat clock s ws roomId username role).1 =
          mkHub (<[roomId := room']> (rooms s)) (<[new := user]> (users s))
                (<[new := ws]> (connections s)) (activeStreams s) (chatMessages s)
                (<[ws := Some new]> (sessions s)) (accepted s) (S (minted s)))
    as Hseated.
  { unfold seat. simpl. by rewrite Hroom. }
  cbv zeta. rewrite Hseated.
  rewrite (on_close_joined clock' _ ws new user room');
    [|simpl; apply lookup_insert_eq..].
  cbv zeta. cbn [User.roomId User.role user rooms users connections activeStreams
                 chatMessages sessions accepted minted].
  assert (vacate new user room' = room) as ->
    by exact (vacate_after_seat new username role roomId room Hseat Hfresh).
  assert (match role with
          | Broadcaster => delete roomId (activeStreams s)
          | Viewer => activeStreams s
          end = activeStreams s) as ->.
  { destruct role; [|done]. apply delete_id. by apply Hact. }
  destruct (bool_decide (Room.broadcaster room = None)
            && bool_decide (length (Room.viewers room) = 0)); simpl.
  - rewrite (delete_insert_id (users s)), (delete_insert_id (connections s)) by done.
    by rewrite !delete_insert_eq.
  - rewrite (delete_insert_id (users s)), (delete_insert_id (connections s)) by done.
    rewrite insert_insert_eq. by rewrite insert_id.
Qed.

(** X20: a socket that joins and then disconnects leaves no trace.  From
    every reachable state, if a socket that holds no identity sends a
    JOIN_ROOM and is then closed, the rooms, users, connections, stream flags
    and chat logs are exactly what they were before the join - whether the
    join was refused, seated the socket in an existing room, or created the
    room. *)
Theorem join_then_close_leaves_no_trace st ws clock clock' roomId username role sent :
  reachable toLowerCase st →
  sessions st !! ws = Some None →
  let joined :=
    (on_message toLowerCase clock st ws (join_request roomId username role sent)).1 in
  let closed := (on_close clock' joined ws).1 in
  rooms closed = rooms st ∧ users closed = users st ∧
  connections closed = connections st ∧
  activeStreams closed = activeStreams st ∧
  chatMessages closed = chatMessages st.
Proof.
  intros Hst Hws. pose proof (reachable_tidy _ Hst) as T.
  apply reachable_consistent in Hst. cbv zeta.
  pose proof (fresh_user _ _ Hst) as Hfresh.
  assert (connections st !! uuidv4 (minted st) = None) as Hfreshc.
  { destruct (connections st !! uuidv4 (minted st)) eqn:E; [|done].
    destruct (proj2 (users_connected _ _ Hst (uuidv4 (minted st)))) as [? ?];
      [by eexists|congruence]. }
  assert (∀ r, rooms st !! roomId = Some r → uuidv4 (minted st) ∉ Room.viewers r)
    as Hnv.
  { intros r Hr Hin. destruct (viewers_known _ _ Hst _ _ _ Hr Hin) as (? & ? & _).
    congruence. }
  assert ((on_close clock' st ws).1 =
          set_sessions (delete ws (sessions st)) st) as Hrefused.
  { unfold on_close. by rewrite Hws. }
  unfold on_message, join_request. rewrite Hws. simpl.
  unfold join_room. destruct (rooms st !! roomId) as [room|] eqn:Hroom.
  - destruct (isUsernameTaken _ _ _ _); [cbn [fst]; by rewrite Hrefused|].
    destruct (bool_decide (role = Broadcaster) && _) eqn:E;
      [cbn [fst]; by rewrite Hrefused|].
    assert (role = Broadcaster → Room.broadcaster room = None) as Hseat.
    { intros ->. rewrite bool_decide_eq_true_2 in E by done. simpl in E.
      apply bool_decide_eq_false in E. destruct (Room.broadcaster room); [|done].
      destruct E. by eexists. }
    destruct (seat_then_close clock clock' st ws roomId username role room)
      as (Hu & Hc & Ha & Hrest); try done.
    { intros ->. destruct (activeStreams st !! roomId) as [b|] eqn:Hact; [|done].
      rewrite (active_is_true _ _ T _ _ Hact) in Hact.
      destruct (active_broadcast _ _ Hst _ Hact) as (r & Hr & [b' Hb']).
      assert (r = room) as -> by congruence.
      rewrite Hseat in Hb' by done. congruence. }
    { by apply Hnv. }
    assert (bool_decide (Room.broadcaster room = None)
            && bool_decide (length (Room.viewers room) = 0) = false) as Hkeep.
    { apply andb_false_iff.
      pose proof (rooms_nonempty _ _ Hst _ _ Hroom) as Hne. unfold userIds in Hne.
      destruct (Room.broadcaster room).
      - left. by apply bool_decide_eq_false_2.
      - right. apply bool_decide_eq_false_2. intros Hlen.
        apply length_zero_iff_nil in Hlen. rewrite Hlen in Hne. by apply Hne. }
    rewrite Hkeep in Hrest. by destruct Hrest.
  - destruct role; [|cbn [fst]; by rewrite Hrefused].
    assert (chatMessages st !! roomId = None) as Hnolog.
    { destruct (chatMessages st !! roomId) eqn:E; [|done].
      destruct (chat_of_room _ _ Hst roomId) as [? ?]; [by eexists|congruence]. }
    destruct (seat_then_close clock clock'
                (set_chatMessages (<[roomId := []]> (chatMessages st))
                   (set_rooms
                      (<[roomId := Room.mk roomId ("Room " +:+ roomId) None []]>
                         (rooms st)) st))
                ws roomId username Broadcaster
                (Room.mk roomId ("Room " +:+ roomId) None []))
      as (Hu & Hc & Ha & Hr & Hl); try done.
    { simpl. apply lookup_insert_eq. }
    { intros _. simpl. destruct (activeStreams st !! roomId) as [b|] eqn:Hact; [|done].
      rewrite (active_is_true _ _ T _ _ Hact) in Hact.
      destruct (active_broadcast _ _ Hst _ Hact) as (r & Hr & _). congruence. }
    { simpl. by intros ?%elem_of_nil. }
    simpl in *. rewrite Hu, Hc, Ha, Hr, Hl.
    by rewrite !delete_insert_id.
Qed.

End Properties.

(** ** The relay server *)

Section RelayProperties.

Variable Json : Type.
Variable JSON_parse : string → option Json.
Variable JSON_stringify : Json → string.

(** X21: the relay server sends a frame that parses to every socket of
    [wss.clients] but the one it came from, once each, as the parsed message
    serialised again; it never sends a frame back to its sender, and a frame
    that does not parse is sent to nobody. *)
Theorem relay_reaches_the_others clients ws data :
  NoDup clients →
  let out := relay_on_message Json JSON_parse JSON_stringify clients ws data in
  match JSON_parse data with
  | None => out = []
  | Some message =>
      out = map (λ client, (client, JSON_stringify message))
                (filter (λ client, client ≠ ws) clients) ∧
      NoDup out.*1 ∧
      (∀ client, client ∈ out.*1 ↔ client ∈ clients ∧ client ≠ ws)
  end.
Proof.
  intros Hnd. cbv zeta. unfold relay_on_message.
  destruct (JSON_parse data) as [message|]; [|done].
  assert (flat_map
            (λ client,
               if decide (client ≠ ws) then [(client, JSON_stringify message)]
               else []) clients
          = map (λ client, (client, JSON_stringify message))
                (filter (λ client, client ≠ ws) clients)) as ->.
  { clear Hnd. induction clients as [|c clients IH]; [done|].
    cbn [flat_map]. rewrite IH, filter_cons. by destruct (decide (c ≠ ws)). }
  assert ((map (λ client, (client, JSON_stringify message))
               (filter (λ client, client ≠ ws) clients)).*1
          = filter (λ client, client ≠ ws) clients) as Hfst.
  { rewrite <- list_fmap_compose. apply list_fmap_id. }
  split; [done|]. rewrite Hfst. split; [by apply NoDup_filter|].
  intros client. rewrite list_elem_of_filter. tauto.
Qed.

End RelayProperties.

(** ** The statements on the scenarios *)

Lemma reachable_after evs : reachable ascii_toLowerCase (after evs).
Proof. apply reachable_run, reachable_initial. Qed.

(** C1, as it is stated, fails: with Alice the broadcaster of r, a JOIN_ROOM
    for r with role broadcaster under the name alice is answered by
    USER_EXISTS, so not by BROADCASTER_EXISTS. *)
Lemma join_second_broadcaster_taken_name :
  let st := after alice_alone in
  let out :=
    (on_message ascii_toLowerCase clk st 1 (join "r" "alice" Broadcaster)).2 in
  sessions st !! 1 = Some None ∧
  rooms st !! "r" = Some (Room.mk "r" "Room r" (Some "uuid-0") []) ∧
  out = [(1, WSMessage.mk ERROR
               (ErrorPayload USER_EXISTS "Username is already taken in this room")
               (clk 0))] ∧
  ¬ ∃ text stamp,
      out = [(1, WSMessage.mk ERROR (ErrorPayload BROADCASTER_EXISTS text) stamp)].
Proof.
  vm_compute. split_and!; try reflexivity.
  intros (text & stamp & H). discriminate H.
Qed.

Lemma join_second_broadcaster_witness :
  Room.broadcaster (Room.mk "r" "Room r" (Some "uuid-0") ["uuid-1"]) = Some "uuid-0"
  ∧
  on_message ascii_toLowerCase clk (after alice_and_bob) 2 (join "r" "Carol" Broadcaster) =
    (after alice_and_bob,
     [(2, WSMessage.mk ERROR
            (ErrorPayload BROADCASTER_EXISTS "Room already has a broadcaster")
            (clk 0))]).
Proof.
  destruct (join_second_broadcaster ascii_toLowerCase (after alice_and_bob)
              (reachable_after alice_and_bob)) as (Hseat & _ & Hjoin).
  split.
  - apply (Hseat "r" (Room.mk "r" "Room r" (Some "uuid-0") ["uuid-1"]) "uuid-0"
             (User.mk "uuid-0" "Alice" Broadcaster "r")).
    + vm_compute. reflexivity.
    + vm_compute. reflexivity.
    + reflexivity.
    + reflexivity.
  - apply (Hjoin 2 None clk "r" "Carol" "t"
             (Room.mk "r" "Room r" (Some "uuid-0") ["uuid-1"])).
    + vm_compute. reflexivity.
    + vm_compute. reflexivity.
    + simpl. eexists. reflexivity.
    + vm_compute. reflexivity.
Defined.

Lemma relay_stamps_sender_witness :
  on_message ascii_toLowerCase clk (after alice_and_bob) 0
    (WSMessage.mk OFFER (RTCSignalPayload "ATTACKER" "uuid-1" "r" "D") "t")
  = (after alice_and_bob,
     [(1, WSMessage.mk OFFER (RTCSignalPayload "uuid-0" "uuid-1" "r" "D") (clk 0))]).
Proof.
  apply (relay_stamps_sender ascii_toLowerCase (after alice_and_bob) 0 "uuid-0" clk
           (WSMessage.mk OFFER (RTCSignalPayload "ATTACKER" "uuid-1" "r" "D") "t")
           "ATTACKER" "uuid-1" "r" "D").
  - vm_compute. reflexivity.
  - simpl. left.
  - reflexivity.
Defined.

Lemma join_absent_room_witness :
  on_message ascii_toLowerCase clk (after alice_alone) 1 (join "q" "Bob" Viewer) =
    (after alice_alone,
     [(1, WSMessage.mk ERROR
            (ErrorPayload ROOM_NOT_FOUND "Room does not exist") (clk 0))])
  ∧
  rooms (on_message ascii_toLowerCase clk (after alice_alone) 1
           (join "q" "Bob" Broadcaster)).1 !! "q"
  = Some (Room.mk "q" "Room q" (Some "uuid-1") []).
Proof.
  destruct (join_absent_room ascii_toLowerCase (after alice_alone) 1 None clk
              "q" "Bob" "t") as (Hviewer & Hroom & _).
  - vm_compute. reflexivity.
  - vm_compute. reflexivity.
  - split; [exact Hviewer|exact Hroom].
Defined.

Lemma stream_active_has_broadcaster_witness :
  activeStreams
    (on_message ascii_toLowerCase clk (after alice_and_bob) 0
       (WSMessage.mk STREAM_READY (ReadyPayload "r" "uuid-0") "t")).1 !! "r"
  = Some true
  ∧ activeStreams (on_close clk (after alice_and_bob) 0).1 !! "r" = None.
Proof.
  destruct (stream_active_has_broadcaster ascii_toLowerCase (after alice_and_bob)
              (reachable_after alice_and_bob)) as [_ H].
  destruct (H 0 "uuid-0" "r" (Room.mk "r" "Room r" (Some "uuid-0") ["uuid-1"]) clk
              (WSMessage.mk STREAM_READY (ReadyPayload "r" "uuid-0") "t"))
    as [Hready Hclose].
  - vm_compute. reflexivity.
  - vm_compute. reflexivity.
  - reflexivity.
  - split; [apply Hready; reflexivity|exact Hclose].
Defined.

Lemma join_taken_username_witness :
  on_message ascii_toLowerCase clk (after alice_alone) 1 (join "r" "ALICE" Viewer) =
    (after alice_alone,
     [(1, WSMessage.mk ERROR
            (ErrorPayload USER_EXISTS "Username is already taken in this room")
            (clk 0))]).
Proof.
  apply (join_taken_username ascii_toLowerCase (after alice_alone) 1 None clk
           "r" "ALICE" Viewer "t" (Room.mk "r" "Room r" (Some "uuid-0") [])
           "uuid-0" (User.mk "uuid-0" "Alice" Broadcaster "r")).
  - apply reachable_after.
  - vm_compute. reflexivity.
  - vm_compute. reflexivity.
  - simpl. left.
  - vm_compute. reflexivity.
  - vm_compute. reflexivity.
Defined.

Lemma empty_rooms_are_gone_witness :
  rooms (after (alice_alone ++ [Close 0 clk])) !! "r" = None ∧
  api_room_messages (after (alice_alone ++ [Close 0 clk])) "r" None = [].
Proof.
  destruct (empty_rooms_are_gone ascii_toLowerCase
              (after (alice_alone ++ [Close 0 clk]))
              (reachable_after _)) as [_ H].
  destruct (H "r") as (_ & _ & Hread).
  - vm_compute. reflexivity.
  - split; [vm_compute; reflexivity|apply Hread].
Defined.

Lemma chat_delivery_witness :
  let minted_as (type : ChatType) (recipientId : option string) :=
    WSMessage.mk CHAT_MESSAGE_RECEIVED
      (ChatMessagePayload
         (ChatMessage.mk "uuid-3" "uuid-0" "Alice" "r" "hi" type recipientId (clk 1)))
      (clk 1) in
  (on_message ascii_toLowerCase clk (after three_members) 0
     (say private (Some "uuid-1") "hi")).2
  = [(1, minted_as private (Some "uuid-1")); (0, minted_as private (Some "uuid-1"))]
  ∧
  ∃ socks,
    Forall2 (λ uid s, connections (after three_members) !! uid = Some s)
            ["uuid-0"; "uuid-1"; "uuid-2"] socks ∧
    (on_message ascii_toLowerCase clk (after three_members) 0 (say public None "hi")).2
    = map (λ s, (s, minted_as public None)) socks.
Proof.
  split.
  - destruct (chat_delivery ascii_toLowerCase (after three_members) 0 "uuid-0"
                (User.mk "uuid-0" "Alice" Broadcaster "r") clk
                (ChatMessage.mk "c" "c" "c" "r" "hi" private (Some "uuid-1") "t") "t")
      as [Hprivate _].
    + apply reachable_after.
    + vm_compute. reflexivity.
    + vm_compute. reflexivity.
    + apply (Hprivate "uuid-1" 1); vm_compute; reflexivity.
  - destruct (chat_delivery ascii_toLowerCase (after three_members) 0 "uuid-0"
                (User.mk "uuid-0" "Alice" Broadcaster "r") clk
                (ChatMessage.mk "c" "c" "c" "r" "hi" public None "t") "t")
      as [_ Hpublic].
    + apply reachable_after.
    + vm_compute. reflexivity.
    + vm_compute. reflexivity.
    + destruct (Hpublic eq_refl) as (room & socks & Hroom & _ & _ & Hall & Hout).
      assert (room = Room.mk "r" "Room r" (Some "uuid-0") ["uuid-1"; "uuid-2"]) as ->.
      { vm_compute in Hroom. congruence. }
      exists socks. split; [exact Hall|exact Hout].
Defined.

(** C8, as it is stated, fails: when Bob joins Alice's room as a viewer,
    his socket is handed ROOM_JOINED and then ROOM_STATE; USER_JOINED goes to
    Alice's socket only. *)
Lemma viewer_join_without_user_joined :
  let st := after alice_alone in
  let out := (on_message ascii_toLowerCase clk st 1 (join "r" "Bob" Viewer)).2 in
  rooms st !! "r" = Some (Room.mk "r" "Room r" (Some "uuid-0") []) ∧
  activeStreams st !! "r" = None ∧
  connections st !! "uuid-0" = Some 0 ∧
  received_by 1 out = [ROOM_JOINED; ROOM_STATE] ∧
  received_by 1 out ≠ [ROOM_JOINED; USER_JOINED; ROOM_STATE] ∧
  received_by 0 out = [USER_JOINED; ROOM_STATE].
Proof.
  vm_compute. split_and!; try reflexivity. discriminate.
Qed.

Lemma viewer_join_notifications_witness :
  let user := User.mk "uuid-1" "Bob" Viewer "r" in
  let snapshot :=
    Some (RoomWithUsers.mk "r" "Room r" (Some "uuid-0") ["uuid-1"]
            [User.mk "uuid-0" "Alice" Broadcaster "r"; user]) in
  (on_message ascii_toLowerCase clk (after alice_alone) 1 (join "r" "Bob" Viewer)).2 =
    [(1, WSMessage.mk ROOM_JOINED (RoomJoinedPayload snapshot user []) (clk 0));
     (0, WSMessage.mk USER_JOINED (UserJoinedPayload user) (clk 0));
     (0, WSMessage.mk ROOM_STATE (RoomStatePayload snapshot) (clk 0));
     (1, WSMessage.mk ROOM_STATE (RoomStatePayload snapshot) (clk 0))].
Proof.
  destruct (viewer_join_notifications ascii_toLowerCase (after alice_alone) 1 None
              clk "r" "Bob" "t" (Room.mk "r" "Room r" (Some "uuid-0") [])
              "uuid-0" 0) as (broadcaster & Hb & Hout).
  - apply reachable_after.
  - vm_compute. reflexivity.
  - vm_compute. reflexivity.
  - reflexivity.
  - reflexivity.
  - vm_compute. discriminate.
  - vm_compute. reflexivity.
  - vm_compute. reflexivity.
  - vm_compute. reflexivity.
Defined.

(** C4, at the inputs where the code departs from the claim.  The socket
    registered for the broadcaster of r has sent a second JOIN_ROOM.  When
    it closes, the stream flag of r stays set, although the session of r's
    broadcaster is gone; and when it sends STREAM_READY (having joined q as a
    viewer in between), the flag of r is not set, although r's broadcaster is
    registered to this very socket. *)
Theorem stream_flag_misses_rejoined_socket :
  let st := after rejoined_while_streaming in
  let st' := (on_close clk st 0).1 in
  let sv := after rejoined_as_viewer in
  let sv' := (on_message ascii_toLowerCase clk sv 0 (ready STREAM_READY "uuid-0")).1 in
  rooms st !! "r" = Some (Room.mk "r" "Room r" (Some "uuid-0") []) ∧
  connections st !! "uuid-0" = Some 0 ∧
  activeStreams st !! "r" = Some true ∧
  sessions st' !! 0 = None ∧
  rooms st' !! "r" = Some (Room.mk "r" "Room r" (Some "uuid-0") []) ∧
  activeStreams st' !! "r" = Some true ∧
  rooms sv !! "r" = Some (Room.mk "r" "Room r" (Some "uuid-0") []) ∧
  connections sv !! "uuid-0" = Some 0 ∧
  sv' = sv ∧
  activeStreams sv' !! "r" = None.
Proof. vm_compute. done. Qed.

(** C9, at the input where the code departs from the claim: after one
    socket has sent two JOIN_ROOM, the connection registry maps two distinct
    user ids to that socket; and once the socket has closed, the first of
    them is still registered, still mapped to the closed socket and still the
    broadcaster of its room. *)
Theorem second_join_keeps_first_identity :
  let st := after joined_twice in
  let st' := (on_close clk st 0).1 in
  connections st !! "uuid-0" = Some 0 ∧
  connections st !! "uuid-1" = Some 0 ∧
  sessions st !! 0 = Some (Some "uuid-1") ∧
  sessions st' !! 0 = None ∧
  connections st' !! "uuid-0" = Some 0 ∧
  users st' !! "uuid-0" = Some (User.mk "uuid-0" "Alice" Broadcaster "r") ∧
  rooms st' !! "r" = Some (Room.mk "r" "Room r" (Some "uuid-0") []).
Proof. vm_compute. done. Qed.

Lemma private_chat_crosses_rooms_witness :
  let received :=
    WSMessage.mk CHAT_MESSAGE_RECEIVED
      (ChatMessagePayload
         (ChatMessage.mk "uuid-2" "uuid-0" "Alice" "r" "hi" private
            (Some "uuid-1") (clk 1)))
      (clk 1) in
  users (after two_rooms) !! "uuid-1" = Some (User.mk "uuid-1" "Carol" Broadcaster "q") ∧
  (1, received) ∈
    (on_message ascii_toLowerCase clk (after two_rooms) 0
       (say private (Some "uuid-1") "hi")).2.
Proof.
  split; [vm_compute; reflexivity|].
  destruct (private_chat_crosses_rooms ascii_toLowerCase (after two_rooms) 0 "uuid-0"
              (User.mk "uuid-0" "Alice" Broadcaster "r") clk
              (ChatMessage.mk "c" "c" "c" "r" "hi" private (Some "uuid-1") "t") "t"
              "uuid-1") as [_ Hcross].
  - vm_compute. reflexivity.
  - vm_compute. reflexivity.
  - reflexivity.
  - reflexivity.
  - discriminate.
  - apply (Hcross (User.mk "uuid-1" "Carol" Broadcaster "q") 1).
    + vm_compute. reflexivity.
    + simpl. discriminate.
    + vm_compute. reflexivity.
Defined.

(** ** The further properties on the scenarios *)

Lemma unjoined_socket_ignored_witness :
  on_message ascii_toLowerCase clk (after alice_alone) 1 (say public None "hi")
  = (after alice_alone, []).
Proof.
  apply unjoined_socket_ignored.
  - vm_compute. reflexivity.
  - discriminate.
Defined.

Lemma viewer_ready_forwarded_witness :
  on_message ascii_toLowerCase clk (after alice_and_bob) 1 (ready VIEWER_READY "uuid-1")
  = (after alice_and_bob,
     [(0, WSMessage.mk VIEWER_READY
            (ViewerReadyPayload (User.mk "uuid-1" "Bob" Viewer "r")) (clk 0))]).
Proof.
  apply (viewer_ready_forwarded ascii_toLowerCase (after alice_and_bob) 1 "uuid-1"
           (User.mk "uuid-1" "Bob" Viewer "r")
           (Room.mk "r" "Room r" (Some "uuid-0") ["uuid-1"]) "uuid-0" 0).
  all: vm_compute; reflexivity.
Defined.

Lemma ready_signal_dropped_witness :
  on_message ascii_toLowerCase clk (after alice_and_bob) 1 (ready STREAM_READY "uuid-1")
  = (after alice_and_bob, []).
Proof.
  apply (ready_signal_dropped ascii_toLowerCase (after alice_and_bob) 1 "uuid-1"
           (User.mk "uuid-1" "Bob" Viewer "r")
           (Room.mk "r" "Room r" (Some "uuid-0") ["uuid-1"])).
  - vm_compute. reflexivity.
  - vm_compute. reflexivity.
  - vm_compute. reflexivity.
  - left. split; reflexivity.
Defined.

Lemma stream_ready_notifies_viewers_witness :
  ∃ broadcaster socks,
    users (after three_members) !! "uuid-0" = Some broadcaster ∧
    Forall2 (λ v s, connections (after three_members) !! v = Some s)
            ["uuid-1"; "uuid-2"] socks ∧
    (on_message ascii_toLowerCase clk (after three_members) 0
       (ready STREAM_READY "uuid-0")).2 =
      imap (λ i s, (s, WSMessage.mk BROADCASTER_READY
                         (BroadcasterReadyPayload broadcaster) (clk (1 + i))))
           socks.
Proof.
  apply (stream_ready_notifies_viewers ascii_toLowerCase (after three_members) 0
           "uuid-0" "r" (Room.mk "r" "Room r" (Some "uuid-0") ["uuid-1"; "uuid-2"])).
  - apply reachable_after.
  - vm_compute. reflexivity.
  - vm_compute. reflexivity.
  - reflexivity.
  - reflexivity.
Defined.

Lemma stream_ready_idempotent_witness :
  (on_message ascii_toLowerCase clk
     (on_message ascii_toLowerCase clk (after alice_and_bob) 0
        (ready STREAM_READY "uuid-0")).1
     0 (ready STREAM_READY "uuid-0")).1
  = (on_message ascii_toLowerCase clk (after alice_and_bob) 0
       (ready STREAM_READY "uuid-0")).1.
Proof.
  apply (stream_ready_idempotent ascii_toLowerCase (after alice_and_bob) 0 "uuid-0"
           (User.mk "uuid-0" "Alice" Broadcaster "r")).
  - vm_compute. reflexivity.
  - vm_compute. reflexivity.
  - reflexivity.
Defined.

Lemma late_viewer_told_at_once_witness :
  ∃ broadcaster joined rest,
    users (after streaming) !! "uuid-0" = Some broadcaster ∧
    WSMessage.type joined = ROOM_JOINED ∧
    (on_message ascii_toLowerCase clk (after streaming) 3 (join "r" "Dave" Viewer)).2 =
      (3, joined)
      :: (3, WSMessage.mk BROADCASTER_READY
               (BroadcasterReadyPayload broadcaster) (clk 1))
      :: rest.
Proof.
  apply (late_viewer_told_at_once ascii_toLowerCase (after streaming) 3 None clk
           "r" "Dave" "t"
           (Room.mk "r" "Room r" (Some "uuid-0") ["uuid-1"; "uuid-2"]) "uuid-0").
  - apply reachable_after.
  - vm_compute. reflexivity.
  - vm_compute. reflexivity.
  - reflexivity.
  - vm_compute. reflexivity.
  - vm_compute. reflexivity.
Defined.

Lemma join_accepted_witness :
  users (on_message ascii_toLowerCase clk (after alice_alone) 1
           (join "r" "Bob" Viewer)).1 !! "uuid-1"
  = Some (User.mk "uuid-1" "Bob" Viewer "r")
  ∧
  rooms (on_message ascii_toLowerCase clk (after alice_alone) 1
           (join "r" "Bob" Viewer)).1 !! "r"
  = Some (Room.mk "r" "Room r" (Some "uuid-0") ["uuid-1"]).
Proof.
  destruct (join_accepted ascii_toLowerCase (after alice_alone) 1 None clk
              "r" "Bob" Viewer "t" (Room.mk "r" "Room r" (Some "uuid-0") []))
    as (Huser & _ & _ & Hroom & _).
  - vm_compute. reflexivity.
  - vm_compute. reflexivity.
  - vm_compute. reflexivity.
  - discriminate.
  - split; [exact Huser|exact Hroom].
Defined.

Lemma departure_notifies_remaining_witness :
  rooms (on_close clk (after alice_and_bob) 0).1 !! "r"
  = Some (Room.mk "r" "Room r" None ["uuid-1"])
  ∧ users (on_close clk (after alice_and_bob) 0).1 !! "uuid-0" = None.
Proof.
  destruct (departure_notifies_remaining ascii_toLowerCase (after alice_and_bob) 0
              "uuid-0" (User.mk "uuid-0" "Alice" Broadcaster "r")
              (Room.mk "r" "Room r" (Some "uuid-0") ["uuid-1"]) clk)
    as (Hroom & Huser & _).
  - apply reachable_after.
  - vm_compute. reflexivity.
  - vm_compute. reflexivity.
  - vm_compute. reflexivity.
  - vm_compute. discriminate.
  - split; [exact Hroom|exact Huser].
Defined.

Lemma last_departure_deletes_room_witness :
  rooms (on_close clk (after alice_alone) 0).1 !! "r" = None ∧
  chatMessages (on_close clk (after alice_alone) 0).1 !! "r" = None ∧
  (on_close clk (after alice_alone) 0).2 = [].
Proof.
  destruct (last_departure_deletes_room ascii_toLowerCase (after alice_alone) 0
              "uuid-0" (User.mk "uuid-0" "Alice" Broadcaster "r")
              (Room.mk "r" "Room r" (Some "uuid-0") []) clk)
    as (Hroom & Hlog & _ & _ & _ & Hout).
  - apply reachable_after.
  - vm_compute. reflexivity.
  - vm_compute. reflexivity.
  - vm_compute. reflexivity.
  - vm_compute. reflexivity.
  - split_and!; [exact Hroom|exact Hlog|exact Hout].
Defined.

Lemma usernames_unique_in_room_witness :
  ascii_toLowerCase "Alice" ≠ ascii_toLowerCase "Bob".
Proof.
  apply (usernames_unique_in_room ascii_toLowerCase (after alice_and_bob)
           "uuid-0" "uuid-1"
           (User.mk "uuid-0" "Alice" Broadcaster "r")
           (User.mk "uuid-1" "Bob" Viewer "r")).
  - apply reachable_after.
  - vm_compute. reflexivity.
  - vm_compute. reflexivity.
  - reflexivity.
  - discriminate.
Defined.

Lemma registries_agree_witness :
  ∃ room, rooms (after three_members) !! "r" = Some room ∧ "uuid-2" ∈ userIds room.
Proof.
  destruct (registries_agree ascii_toLowerCase (after three_members)
              (reachable_after three_members)) as (_ & Hseated & _).
  apply (Hseated "uuid-2" (User.mk "uuid-2" "Carol" Viewer "r")).
  vm_compute. reflexivity.
Defined.

Lemma room_and_log_together_witness :
  is_Some (rooms (after alice_alone) !! "r") ↔
  is_Some (chatMessages (after alice_alone) !! "r").
Proof.
  apply (room_and_log_together ascii_toLowerCase (after alice_alone) "r").
  apply reachable_after.
Defined.

Lemma history_of_own_room_witness :
  ChatMessage.roomId
    (ChatMessage.mk "uuid-2" "uuid-0" "Alice" "r" "hello" public None (clk 1)) = "r".
Proof.
  apply (history_of_own_room ascii_toLowerCase (after chatting) "r" 50).
  - apply reachable_after.
  - vm_compute. left.
Defined.

Lemma chat_message_logged_witness :
  last (getRoomMessages
          (on_message ascii_toLowerCase clk (after alice_and_bob) 0
             (say private (Some "uuid-1") "psst")).1 "r" 50)
  = Some (ChatMessage.mk "uuid-2" "uuid-0" "Alice" "r" "psst" private
            (Some "uuid-1") (clk 1)).
Proof.
  destruct (chat_message_logged ascii_toLowerCase (after alice_and_bob) 0 "uuid-0"
              (User.mk "uuid-0" "Alice" Broadcaster "r") clk
              (ChatMessage.mk "c" "c" "c" "r" "psst" private (Some "uuid-1") "t")
              "t" 50) as (_ & _ & Hlast).
  - vm_compute. reflexivity.
  - vm_compute. reflexivity.
  - reflexivity.
  - exact Hlast.
Defined.

Lemma history_is_tail_witness :
  length (getRoomMessages (after chatting) "r" 50) = 1 ∧
  ∃ older,
    default [] (chatMessages (after chatting) !! "r") =
    older ++ getRoomMessages (after chatting) "r" 50.
Proof.
  destruct (history_is_tail (after chatting) "r" 50) as [Hlen Hold].
  - reflexivity.
  - split; [|exact Hold]. rewrite Hlen. vm_compute. reflexivity.
Defined.

Lemma history_limit_edges_witness :
  api_room_messages (after chatting) "r" (Some (- 1)%Z) =
  drop 1 (default [] (chatMessages (after chatting) !! "r")).
Proof.
  destruct (history_limit_edges (after chatting) "r" 1) as (_ & _ & _ & Hneg).
  - reflexivity.
  - exact Hneg.
Defined.

Lemma private_without_recipient_is_public_witness :
  let received :=
    WSMessage.mk CHAT_MESSAGE_RECEIVED
      (ChatMessagePayload
         (ChatMessage.mk "uuid-2" "uuid-0" "Alice" "r" "hi" private None (clk 1)))
      (clk 1) in
  ∃ room socks,
    rooms (after alice_and_bob) !! "r" = Some room ∧
    "uuid-0" ∈ userIds room ∧
    Forall2 (λ uid s, connections (after alice_and_bob) !! uid = Some s)
            (userIds room) socks ∧
    (on_message ascii_toLowerCase clk (after alice_and_bob) 0
       (say private None "hi")).2 = map (λ s, (s, received)) socks.
Proof.
  apply (private_without_recipient_is_public ascii_toLowerCase (after alice_and_bob)
           0 "uuid-0" (User.mk "uuid-0" "Alice" Broadcaster "r") clk
           (ChatMessage.mk "c" "c" "c" "r" "hi" private None "t") "t").
  - apply reachable_after.
  - vm_compute. reflexivity.
  - vm_compute. reflexivity.
  - reflexivity.
  - left. reflexivity.
Defined.

Lemma private_to_unknown_recipient_witness :
  (on_message ascii_toLowerCase clk (after alice_and_bob) 0
     (say private (Some "nobody") "hi")).2
  = [(0, WSMessage.mk CHAT_MESSAGE_RECEIVED
           (ChatMessagePayload
              (ChatMessage.mk "uuid-2" "uuid-0" "Alice" "r" "hi" private
                 (Some "nobody") (clk 1)))
           (clk 1))].
Proof.
  apply (private_to_unknown_recipient ascii_toLowerCase (after alice_and_bob) 0
           "uuid-0" (User.mk "uuid-0" "Alice" Broadcaster "r") clk
           (ChatMessage.mk "c" "c" "c" "r" "hi" private (Some "nobody") "t") "t"
           "nobody").
  - vm_compute. reflexivity.
  - vm_compute. reflexivity.
  - reflexivity.
  - reflexivity.
  - discriminate.
  - vm_compute. reflexivity.
Defined.

Lemma snapshot_lists_members_witness :
  ∃ members,
    getRoomWithUsers (after alice_and_bob) "r" =
      Some (RoomWithUsers.mk "r" "Room r" (Some "uuid-0") ["uuid-1"] members) ∧
    Forall2 (λ uid u, users (after alice_and_bob) !! uid = Some u)
            ["uuid-0"; "uuid-1"] members.
Proof.
  apply (snapshot_lists_members ascii_toLowerCase (after alice_and_bob) "r"
           (Room.mk "r" "Room r" (Some "uuid-0") ["uuid-1"])).
  - apply reachable_after.
  - vm_compute. reflexivity.
Defined.

Lemma join_then_close_leaves_no_trace_witness :
  let joined :=
    (on_message ascii_toLowerCase clk (after alice_alone) 1
       (join "q" "Carol" Broadcaster)).1 in
  rooms joined !! "q" = Some (Room.mk "q" "Room q" (Some "uuid-1") []) ∧
  rooms (on_close clk joined 1).1 = rooms (after alice_alone) ∧
  chatMessages (on_close clk joined 1).1 = chatMessages (after alice_alone).
Proof.
  destruct (join_then_close_leaves_no_trace ascii_toLowerCase (after alice_alone) 1
              clk clk "q" "Carol" Broadcaster "t")
    as (Hrooms & _ & _ & _ & Hlogs).
  - apply reachable_after.
  - vm_compute. reflexivity.
  - split_and!; [vm_compute; reflexivity|exact Hrooms|exact Hlogs].
Defined.

Lemma relay_reaches_the_others_witness :
  relay_on_message string Some (λ text, text) [0; 1; 2] 1 "hello"
  = [(0, "hello"); (2, "hello")].
Proof.
  destruct (relay_reaches_the_others string Some (λ text, text) [0; 1; 2] 1 "hello")
    as (Hout & _).
  - apply (bool_decide_unpack _). vm_compute. exact I.
  - exact Hout.
Defined.
